(** * DummyJSON API test suite: client wrapper, assertion helpers and
    schema validation, embedded and verified.

  The development follows the TypeScript sources:
  - [lib/helpers/assertions]            (class [ProductAssertions]),
  - [lib/api/products-api.ts]           (class [ProductsAPI], two revisions),
  - [lib/helpers/ajv_schema_validator]  ([validateResponseSchema]).

  Conventions of the embedding.
  - A JavaScript [number] is a finite number with the two zeros of the
    language: [Finite q] for a rational [q] ([Finite 0] is [+0]) and
    [NegativeZero] for [-0], which JSON can carry.  Comparisons see the
    value; [Object.is], and with it [toBe], also sees the sign of zero.
  - A JavaScript [string] is a [string].  Case mapping and trimming are
    those of the language on ASCII strings ([ascii_only]); a property
    that rests on the mapping of the letters carries that as a
    hypothesis.
  - A call that may throw returns a [completion]: either [Normal v] or
    [Throw e].  Statements are sequenced with [;;], which stops at the
    first [Throw], as a JavaScript block does. *)

From Stdlib Require Import String Ascii List Bool ZArith QArith Qround
  DecimalString Lia.
Import ListNotations.

Set Implicit Arguments.
Set Warnings "-ambiguous-paths".
Open Scope string_scope.

(* ------------------------------------------------------------------ *)
(** * JavaScript values and completions *)

Module JS.

(** A number: [-0], or a finite value, [Finite 0] being [+0]. *)
Inductive number : Type :=
| NegativeZero
| Finite (q : Q).

Definition value (n : number) : Q :=
  match n with
  | NegativeZero => 0
  | Finite q => q
  end.

Coercion Finite : Q >-> number.
Coercion value : number >-> Q.

Definition is_negative_zero (n : number) : bool :=
  match n with
  | NegativeZero => true
  | Finite _ => false
  end.

(** Equality of the values: [a === b] on numbers. *)
Definition same_number (a b : number) : Prop := a == b.

(** [Object.is(a, b)] on numbers as a proposition: the same value and, at
    zero, the same sign. *)
Definition SameValue (a b : number) : Prop :=
  a == b /\ is_negative_zero a = is_negative_zero b.

(** What a [throw] carries.  [ExpectError] is the failure of an
    [expect(...)] matcher; the string names the matcher. *)
Inductive exn : Type :=
| ExpectError (matcher : string)
| TypeError (msg : string)
| SyntaxError (msg : string)
| TransportError (msg : string)
| Error (msg : string).

Inductive completion (A : Type) : Type :=
| Normal (a : A)
| Throw (e : exn).
Arguments Normal {A} a.
Arguments Throw {A} e.

Definition bind {A B} (c : completion A) (k : A -> completion B)
  : completion B :=
  match c with
  | Normal a => k a
  | Throw e => Throw e
  end.

Definition throws {A} (c : completion A) : Prop :=
  exists e, c = Throw e.

Definition passes (c : completion unit) : Prop := c = Normal tt.

(** ** Truthiness and [Object.is] *)

Class Value (A : Type) := {
  truthy : A -> bool;
  Object_is : A -> A -> bool;
  SameValueZero : A -> A -> bool
}.

Definition Qlt_bool (x y : Q) : bool := negb (Qle_bool y x).

#[export] Instance Value_string : Value string :=
  {| truthy := fun s => negb (String.eqb s EmptyString);
     Object_is := String.eqb;
     SameValueZero := String.eqb |}.

#[export] Instance Value_number : Value number :=
  {| truthy := fun n => negb (Qeq_bool (value n) 0);
     Object_is := fun a b =>
       match a, b with
       | NegativeZero, NegativeZero => true
       | Finite p, Finite q => Qeq_bool p q
       | _, _ => false
       end;
     SameValueZero := fun a b => Qeq_bool (value a) (value b) |}.

#[export] Instance Value_bool : Value bool :=
  {| truthy := fun b => b;
     Object_is := Bool.eqb;
     SameValueZero := Bool.eqb |}.

(** [None] is [undefined]. *)
#[export] Instance Value_option {A} `{Value A} : Value (option A) :=
  {| truthy := fun o => match o with Some a => truthy a | None => false end;
     Object_is := fun o1 o2 =>
       match o1, o2 with
       | Some a, Some b => Object_is a b
       | None, None => true
       | _, _ => false
       end;
     SameValueZero := fun o1 o2 =>
       match o1, o2 with
       | Some a, Some b => SameValueZero a b
       | None, None => true
       | _, _ => false
       end |}.

(** ** Strings *)

(** [s.toLowerCase()] maps the letters [A]..[Z]; that is the mapping of
    the language on a string in the ASCII range ([ascii_only] below),
    and only there: outside of it the language also maps other letters,
    some of them by their place in the word or to more than one
    character. *)
Definition lower_ascii (c : ascii) : ascii :=
  let n := nat_of_ascii c in
  if (65 <=? n)%nat && (n <=? 90)%nat then ascii_of_nat (n + 32) else c.

Fixpoint toLowerCase (s : string) : string :=
  match s with
  | EmptyString => EmptyString
  | String c r => String (lower_ascii c) (toLowerCase r)
  end.

(** [hay.includes(needle)] *)
Fixpoint includes (hay needle : string) : bool :=
  String.prefix needle hay
  || match hay with
     | EmptyString => false
     | String _ r => includes r needle
     end.

(** [xs.join(sep)] *)
Fixpoint join (sep : string) (xs : list string) : string :=
  match xs with
  | [] => EmptyString
  | [x] => x
  | x :: r => x ++ sep ++ join sep r
  end.

(** ** Arrays *)

(** A value of type [T[]] is an array. *)
Definition Array_isArray {A} (_ : list A) : bool := true.

Definition Array_length {A} (l : list A) : number :=
  inject_Z (Z.of_nat (List.length l)).

(** [xs.forEach(f)]: the first exception leaves the loop. *)
Fixpoint forEach {A} (xs : list A) (f : A -> completion unit)
  : completion unit :=
  match xs with
  | [] => Normal tt
  | x :: r => bind (f x) (fun _ => forEach r f)
  end.

(** ** The [expect] matchers used by the helpers *)

Definition expect {A} (received : A) : A := received.

Definition check (matcher : string) (b : bool) : completion unit :=
  if b then Normal tt else Throw (ExpectError matcher).

(** A value of a declared type is never [undefined]. *)
Definition toBeDefined {A} (_ : A) : completion unit := Normal tt.

Definition toBeTruthy {A} `{Value A} (received : A) : completion unit :=
  check "toBeTruthy" (truthy received).

Definition toBe {A} `{Value A} (received expected : A) : completion unit :=
  check "toBe" (Object_is received expected).

Definition toBeGreaterThan (received expected : number) : completion unit :=
  check "toBeGreaterThan" (Qlt_bool expected received).

Definition toBeGreaterThanOrEqual (received expected : number)
  : completion unit :=
  check "toBeGreaterThanOrEqual" (Qle_bool expected received).

Definition toBeLessThanOrEqual (received expected : number)
  : completion unit :=
  check "toBeLessThanOrEqual" (Qle_bool received expected).

(** [if (v) k(v)] for an optional property [v]. *)
Definition if_truthy {A} `{Value A} (v : option A)
           (k : A -> completion unit) : completion unit :=
  match v with
  | Some a => if truthy a then k a else Normal tt
  | None => Normal tt
  end.

(** [receiver.toLowerCase()] on a property that may be [undefined]. *)
Definition call_toLowerCase (receiver : option string) : completion string :=
  match receiver with
  | Some s => Normal (toLowerCase s)
  | None =>
      Throw (TypeError
               "Cannot read properties of undefined (reading 'toLowerCase')")
  end.

(** ** More of the string and array library *)

(** [s.toUpperCase()] maps the letters [a]..[z]: the mapping of the
    language on a string in the ASCII range, as for [toLowerCase]. *)
Definition upper_ascii (c : ascii) : ascii :=
  let n := nat_of_ascii c in
  if (97 <=? n)%nat && (n <=? 122)%nat then ascii_of_nat (n - 32) else c.

Fixpoint toUpperCase (s : string) : string :=
  match s with
  | EmptyString => EmptyString
  | String c r => String (upper_ascii c) (toUpperCase r)
  end.

(** The strings on which the case mapping and the trimming of this
    embedding are those of the language: every character is in the ASCII
    range. *)
Fixpoint ascii_only (s : string) : bool :=
  match s with
  | EmptyString => true
  | String c r => (nat_of_ascii c <? 128)%nat && ascii_only r
  end.

(** Whether a lower-case letter [a]..[z] occurs. *)
Fixpoint has_lowercase (s : string) : bool :=
  match s with
  | EmptyString => false
  | String c r =>
      ((97 <=? nat_of_ascii c)%nat && (nat_of_ascii c <=? 122)%nat)
      || has_lowercase r
  end.

(** White space of the ASCII range: tab, line feed, vertical tab, form
    feed, carriage return and space. *)
Definition is_whitespace (c : ascii) : bool :=
  let n := nat_of_ascii c in
  ((9 <=? n)%nat && (n <=? 13)%nat) || (n =? 32)%nat.

Fixpoint trimStart (s : string) : string :=
  match s with
  | EmptyString => EmptyString
  | String c r => if is_whitespace c then trimStart r else s
  end.

Fixpoint trimEnd (s : string) : string :=
  match s with
  | EmptyString => EmptyString
  | String c r =>
      match trimEnd r with
      | EmptyString => if is_whitespace c then EmptyString
                       else String c EmptyString
      | String c' r' => String c (String c' r')
      end
  end.

(** [s.trim()] *)
Definition trim (s : string) : string := trimEnd (trimStart s).

Fixpoint all_whitespace (s : string) : bool :=
  match s with
  | EmptyString => true
  | String c r => is_whitespace c && all_whitespace r
  end.

(** [s.split(sep)] for a separator of one character. *)
Fixpoint split (sep : ascii) (s : string) : list string :=
  match s with
  | EmptyString => [EmptyString]
  | String c r =>
      if Ascii.eqb c sep then EmptyString :: split sep r
      else match split sep r with
           | w :: ws => String c w :: ws
           | [] => [String c EmptyString]
           end
  end.

(** [xs.some(f)], [xs.includes(x)] and [xs.filter(f)]. *)
Definition some {A} (xs : list A) (f : A -> bool) : bool := existsb f xs.

Definition Array_includes {A} `{Value A} (xs : list A) (x : A) : bool :=
  existsb (fun y => SameValueZero y x) xs.

Definition Array_filter {A} (xs : list A) (f : A -> bool) : list A :=
  filter f xs.

Definition toBeLessThan (received expected : number) : completion unit :=
  check "toBeLessThan" (Qlt_bool received expected).

(** [expect(text).toContain(part)] on strings. *)
Definition toContain (received expected : string) : completion unit :=
  check "toContain" (includes received expected).

(** [expect(received).not.toBe(expected)] *)
Definition not_toBe {A} `{Value A} (received expected : A)
  : completion unit :=
  check "not.toBe" (negb (Object_is received expected)).

End JS.

Import JS.

Declare Scope js_scope.
Delimit Scope js_scope with js.
Notation "x <- c ;; k" := (bind c (fun x => k))
  (at level 61, c at next level, right associativity) : js_scope.
Notation "c ;; k" := (bind c (fun _ => k))
  (at level 61, right associativity) : js_scope.
Open Scope js_scope.

(* ------------------------------------------------------------------ *)
(** * Data model ([products-api.ts]) *)

(** [interface Product].  [brand] is declared [string], but the helpers
    treat it as optional (Brand is optional in some products), so it is an
    [option]: [None] is a product decoded without a [brand] property. *)
Record Product : Type := {
  id : number;
  title : string;
  description : string;
  price : number;
  discountPercentage : number;
  rating : number;
  stock : number;
  brand : option string;
  category : string;
  thumbnail : string;
  images : list string
}.

(** [Partial<Product>]: every property may be missing. *)
Module Partial.
Record Product : Type := {
  id : option number;
  title : option string;
  description : option string;
  price : option number;
  discountPercentage : option number;
  rating : option number;
  stock : option number;
  brand : option string;
  category : option string;
  thumbnail : option string;
  images : option (list string)
}.

Definition empty : Product :=
  {| id := None; title := None; description := None; price := None;
     discountPercentage := None; rating := None; stock := None;
     brand := None; category := None; thumbnail := None; images := None |}.

(** [{ ...p, price: v }], and the same with [price] left out for [None]. *)
Definition with_price (v : option number) (p : Product) : Product :=
  {| id := id p; title := title p; description := description p;
     price := v; discountPercentage := discountPercentage p;
     rating := rating p; stock := stock p; brand := brand p;
     category := category p; thumbnail := thumbnail p;
     images := images p |}.

(** [below e' e]: [e'] is [e] with some of the compared properties left
    out. *)
Definition below (e' e : Product) : Prop :=
  (title e' = None \/ title e' = title e)
  /\ (price e' = None \/ price e' = price e)
  /\ (description e' = None \/ description e' = description e)
  /\ (rating e' = None \/ rating e' = rating e)
  /\ (stock e' = None \/ stock e' = stock e)
  /\ (brand e' = None \/ brand e' = brand e)
  /\ (category e' = None \/ category e' = category e).

(** The four properties that [assertProductsMatch] does not read,
    replaced. *)
Definition with_unread (i : option number) (d : option number)
           (t : option string) (im : option (list string)) (p : Product)
  : Product :=
  {| id := i; title := title p; description := description p;
     price := price p; discountPercentage := d;
     rating := rating p; stock := stock p; brand := brand p;
     category := category p; thumbnail := t; images := im |}.
End Partial.

(** [{ ...product }]: the partial that carries every property of a
    product. *)
Definition spread (p : Product) : Partial.Product :=
  {| Partial.id := Some (id p);
     Partial.title := Some (title p);
     Partial.description := Some (description p);
     Partial.price := Some (price p);
     Partial.discountPercentage := Some (discountPercentage p);
     Partial.rating := Some (rating p);
     Partial.stock := Some (stock p);
     Partial.brand := brand p;
     Partial.category := Some (category p);
     Partial.thumbnail := Some (thumbnail p);
     Partial.images := Some (images p) |}.

(** [interface ProductsResponse] *)
Record ProductsResponse : Type := {
  products : list Product;
  total : number;
  skip : number;
  limit : number
}.

(* ------------------------------------------------------------------ *)
(** * Assertion helpers ([class ProductAssertions]) *)

Module ProductAssertions.

Definition assertValidProduct (product : Product) : completion unit :=
  toBeDefined (expect product) ;;
  toBeGreaterThan (expect (id product)) 0 ;;
  toBeTruthy (expect (title product)) ;;
  toBeTruthy (expect (description product)) ;;
  toBeGreaterThan (expect (price product)) 0 ;;
  toBeGreaterThanOrEqual (expect (discountPercentage product)) 0 ;;
  toBeGreaterThanOrEqual (expect (rating product)) 0 ;;
  toBeLessThanOrEqual (expect (rating product)) 5 ;;
  toBeGreaterThanOrEqual (expect (stock product)) 0 ;;
  (if truthy (brand product)
   then toBeTruthy (expect (brand product))
   else Normal tt) ;;
  toBeTruthy (expect (category product)) ;;
  toBeTruthy (expect (thumbnail product)) ;;
  toBeTruthy (expect (Array_isArray (images product))).

Definition assertValidProductsResponse (response : ProductsResponse)
  : completion unit :=
  toBeDefined (expect response) ;;
  toBeTruthy (expect (Array_isArray (products response))) ;;
  toBeGreaterThan (expect (total response)) 0 ;;
  toBeGreaterThanOrEqual (expect (skip response)) 0 ;;
  toBeGreaterThan (expect (limit response)) 0 ;;
  toBeLessThanOrEqual (expect (Array_length (products response)))
                      (limit response).

Definition assertProductsMatch (actual : Product)
           (expected : Partial.Product) : completion unit :=
  if_truthy (Partial.title expected)
            (fun v => toBe (expect (title actual)) v) ;;
  if_truthy (Partial.price expected)
            (fun v => toBe (expect (price actual)) v) ;;
  if_truthy (Partial.description expected)
            (fun v => toBe (expect (description actual)) v) ;;
  if_truthy (Partial.rating expected)
            (fun v => toBe (expect (rating actual)) v) ;;
  if_truthy (Partial.stock expected)
            (fun v => toBe (expect (stock actual)) v) ;;
  if_truthy (Partial.brand expected)
            (fun v => toBe (expect (brand actual)) (Some v)) ;;
  if_truthy (Partial.category expected)
            (fun v => toBe (expect (category actual)) v).

Definition assertProductsInCategory (products : list Product)
           (category' : string) : completion unit :=
  forEach products (fun product =>
    toBe (expect (category product)) category').

Definition assertProductsMatchSearch (products : list Product)
           (searchTerm : string) : completion unit :=
  forEach products (fun product =>
    let searchableTerm := toLowerCase searchTerm in
    let titleMatch := includes (toLowerCase (title product)) searchableTerm in
    let descMatch :=
      includes (toLowerCase (description product)) searchableTerm in
    brandLower <- call_toLowerCase (brand product) ;;
    let brandMatch := includes brandLower searchableTerm in
    toBeTruthy (expect (titleMatch || descMatch || brandMatch))).

Definition assertPagination (response : ProductsResponse)
           (expectedSkip expectedLimit : number) : completion unit :=
  toBe (expect (skip response)) expectedSkip ;;
  toBe (expect (limit response)) expectedLimit ;;
  toBeLessThanOrEqual (expect (Array_length (products response)))
                      expectedLimit.

End ProductAssertions.

(* ------------------------------------------------------------------ *)
(** * The request library, as the client sees it *)

(** [interface Category].  The values are decoded from JSON and the tests
    read them as [cat.slug || cat.name], so a property may be missing. *)
Record Category : Type := {
  slug : option string;
  name : option string;
  url : option string
}.

(** The argument of [getProductsByCategory]: [string | Category]. *)
Inductive CategoryArg : Type :=
| CategoryString (s : string)
| CategoryObject (c : Category).

Module Http.

Inductive Method : Type := GET | POST | PUT | PATCH | DELETE.

Inductive Param : Type :=
| ParamNumber (n : number)
| ParamString (s : string).

(** One call of [request.get / post / put / patch / delete]. *)
Record Request : Type := {
  method : Method;
  target : string;
  params : list (string * Param);
  body : option Partial.Product
}.

(** [APIResponse] of the request library: what its accessors return.
    [json] throws a [SyntaxError] when the body is not JSON. *)
Record APIResponse (Json : Type) : Type := {
  status : Z;
  ok : bool;
  statusText : string;
  headers : list (string * string);
  json : completion Json
}.

(** The library documents [ok()] as: the status is in the range 200-299. *)
Definition ok_contract {Json} (r : APIResponse Json) : Prop :=
  ok r = (200 <=? status r)%Z && (status r <=? 299)%Z.

(** [APIRequestContext]: a completed exchange gives a response, a
    transport failure throws. *)
Definition APIRequestContext (Json : Type) : Type :=
  Request -> completion (APIResponse Json).

(** A computation of the client: the requests it has sent, in order, and
    how it completed. *)
Definition io (A : Type) : Type := (list Request * completion A)%type.

Definition ret {A} (a : A) : io A := ([], Normal a).

Definition bind {A B} (c : io A) (k : A -> io B) : io B :=
  match c with
  | (sent, Normal a) => let (sent', r) := k a in ((sent ++ sent')%list, r)
  | (sent, Throw e) => (sent, Throw e)
  end.

(** [await promise] for a promise that sends nothing. *)
Definition await {A} (c : completion A) : io A := ([], c).

Definition send {Json} (request : APIRequestContext Json) (req : Request)
  : io (APIResponse Json) :=
  ([req], request req).

Definition get {Json} (request : APIRequestContext Json) (target : string)
           (params : list (string * Param)) : io (APIResponse Json) :=
  send request {| method := GET; target := target; params := params;
                  body := None |}.

Definition post {Json} (request : APIRequestContext Json) (target : string)
           (data : Partial.Product) : io (APIResponse Json) :=
  send request {| method := POST; target := target; params := [];
                  body := Some data |}.

Definition put {Json} (request : APIRequestContext Json) (target : string)
           (data : Partial.Product) : io (APIResponse Json) :=
  send request {| method := PUT; target := target; params := [];
                  body := Some data |}.

Definition patch {Json} (request : APIRequestContext Json) (target : string)
           (data : Partial.Product) : io (APIResponse Json) :=
  send request {| method := PATCH; target := target; params := [];
                  body := Some data |}.

Definition delete {Json} (request : APIRequestContext Json) (target : string)
  : io (APIResponse Json) :=
  send request {| method := DELETE; target := target; params := [];
                  body := None |}.

Definition sent {A} (c : io A) : list Request := fst c.
Definition outcome {A} (c : io A) : completion A := snd c.

End Http.

Declare Scope http_scope.
Delimit Scope http_scope with http.
Notation "x <- c ;; k" := (Http.bind c (fun x => k))
  (at level 61, c at next level, right associativity) : http_scope.

(** Template literals: [`${v}`] for a value that may be [undefined], and
    for an object, whose default string form is fixed. *)
Definition template_string (v : option string) : string :=
  match v with
  | Some s => s
  | None => "undefined"
  end.

Definition template_object : string := "[object Object]".

(** A parameter with a default value: [None] is an omitted argument. *)
Definition default {A} (d : A) (arg : option A) : A :=
  match arg with
  | Some a => a
  | None => d
  end.

(* ------------------------------------------------------------------ *)
(** * [class ProductsAPI], the revision returning [ApiResponse<T>]
      ([products-api.ts], first class) *)

Module ProductsAPI.

Import Http.
Local Open Scope http_scope.

(** [interface ApiResponse<T>]; [T] is the decoded body. *)
Record ApiResponse (T : Type) : Type := {
  data : T;
  status : Z;
  ok : bool;
  statusText : string;
  headers : list (string * string)
}.

Record t (Json : Type) : Type := {
  request : APIRequestContext Json
}.

Section Methods.

Variable Json : Type.
(** [`${id}`]: the string form of a number. *)
Variable Number_toString : number -> string.

Definition getAllProducts (this : t Json) (limit skip : option number)
  : io (ApiResponse Json) :=
  let limit := default (30 : number) limit in
  let skip := default (0 : number) skip in
  response <- get (request this) "/products"
                  [("limit", ParamNumber limit); ("skip", ParamNumber skip)] ;;
  data <- await (Http.json response) ;;
  ret {| data := data;
         status := Http.status response;
         ok := Http.ok response;
         statusText := Http.statusText response;
         headers := Http.headers response |}.

Definition getProductById (this : t Json) (id : number)
  : io (ApiResponse Json) :=
  response <- get (request this) ("/products/" ++ Number_toString id) [] ;;
  data <- await (Http.json response) ;;
  ret {| data := data;
         status := Http.status response;
         ok := Http.ok response;
         statusText := Http.statusText response;
         headers := Http.headers response |}.

Definition searchProducts (this : t Json) (query : string)
  : io (ApiResponse Json) :=
  response <- get (request this) "/products/search"
                  [("q", ParamString query)] ;;
  data <- await (Http.json response) ;;
  ret {| data := data;
         status := Http.status response;
         ok := Http.ok response;
         statusText := Http.statusText response;
         headers := Http.headers response |}.

Definition getCategories (this : t Json) : io (ApiResponse Json) :=
  response <- get (request this) "/products/categories" [] ;;
  data <- await (Http.json response) ;;
  ret {| data := data;
         status := Http.status response;
         ok := Http.ok response;
         statusText := Http.statusText response;
         headers := Http.headers response |}.

Definition getProductsByCategory (this : t Json) (category : CategoryArg)
  : io (ApiResponse Json) :=
  let categorySlug :=
    match category with
    | CategoryString s => Some s
    | CategoryObject c => slug c
    end in
  response <- get (request this)
                  ("/products/category/" ++ template_string categorySlug) [] ;;
  data <- await (Http.json response) ;;
  ret {| data := data;
         status := Http.status response;
         ok := Http.ok response;
         statusText := Http.statusText response;
         headers := Http.headers response |}.

Definition addProduct (this : t Json) (product : Partial.Product)
  : io (ApiResponse Json) :=
  response <- post (request this) "/products/add" product ;;
  data <- await (Http.json response) ;;
  ret {| data := data;
         status := Http.status response;
         ok := Http.ok response;
         statusText := Http.statusText response;
         headers := Http.headers response |}.

Definition updateProduct (this : t Json) (id : number)
           (updates : Partial.Product) : io (ApiResponse Json) :=
  response <- put (request this) ("/products/" ++ Number_toString id)
                  updates ;;
  data <- await (Http.json response) ;;
  ret {| data := data;
         status := Http.status response;
         ok := Http.ok response;
         statusText := Http.statusText response;
         headers := Http.headers response |}.

Definition patchProduct (this : t Json) (id : number)
           (updates : Partial.Product) : io (ApiResponse Json) :=
  response <- patch (request this) ("/products/" ++ Number_toString id)
                    updates ;;
  data <- await (Http.json response) ;;
  ret {| data := data;
         status := Http.status response;
         ok := Http.ok response;
         statusText := Http.statusText response;
         headers := Http.headers response |}.

Definition deleteProduct (this : t Json) (id : number)
  : io (ApiResponse Json) :=
  response <- delete (request this) ("/products/" ++ Number_toString id) ;;
  data <- await (Http.json response) ;;
  ret {| data := data;
         status := Http.status response;
         ok := Http.ok response;
         statusText := Http.statusText response;
         headers := Http.headers response |}.

End Methods.

End ProductsAPI.

(* ------------------------------------------------------------------ *)
(** * [class ProductsAPI], the revision with a [baseURL] that returns the
      decoded body alone ([products-api.ts], second class) *)

Module ProductsAPI_baseURL.

Import Http.
Local Open Scope http_scope.

Record t (Json : Type) : Type := {
  request : APIRequestContext Json;
  baseURL : string
}.

(** [constructor(request, baseURL = 'https://dummyjson.com')] *)
Definition new {Json} (request : APIRequestContext Json)
           (baseURL : option string) : t Json :=
  {| request := request;
     baseURL := default "https://dummyjson.com" baseURL |}.

Definition getProductsByCategory {Json} (this : t Json)
           (category : CategoryArg) : io Json :=
  let interpolated :=
    match category with
    | CategoryString s => s
    | CategoryObject _ => template_object
    end in
  response <- get (request this)
                  (baseURL this ++ "/products/category/" ++ interpolated) [] ;;
  await (Http.json response).

Section Methods.

Variable Json : Type.
Variable Number_toString : number -> string.

Definition getAllProducts (this : t Json) (limit skip : option number)
  : io Json :=
  let limit := default (30 : number) limit in
  let skip := default (0 : number) skip in
  response <- get (request this) (baseURL this ++ "/products")
                  [("limit", ParamNumber limit); ("skip", ParamNumber skip)] ;;
  await (Http.json response).

Definition getProductById (this : t Json) (id : number) : io Json :=
  response <- get (request this)
                  (baseURL this ++ "/products/" ++ Number_toString id) [] ;;
  await (Http.json response).

Definition searchProducts (this : t Json) (query : string) : io Json :=
  response <- get (request this) (baseURL this ++ "/products/search")
                  [("q", ParamString query)] ;;
  await (Http.json response).

Definition getCategories (this : t Json) : io Json :=
  response <- get (request this) (baseURL this ++ "/products/categories")
                  [] ;;
  await (Http.json response).

Definition addProduct (this : t Json) (product : Partial.Product)
  : io Json :=
  response <- post (request this) (baseURL this ++ "/products/add")
                   product ;;
  await (Http.json response).

Definition updateProduct (this : t Json) (id : number)
           (updates : Partial.Product) : io Json :=
  response <- put (request this)
                  (baseURL this ++ "/products/" ++ Number_toString id)
                  updates ;;
  await (Http.json response).

Definition patchProduct (this : t Json) (id : number)
           (updates : Partial.Product) : io Json :=
  response <- patch (request this)
                    (baseURL this ++ "/products/" ++ Number_toString id)
                    updates ;;
  await (Http.json response).

Definition deleteProduct (this : t Json) (id : number) : io Json :=
  response <- delete (request this)
                     (baseURL this ++ "/products/" ++ Number_toString id) ;;
  await (Http.json response).

End Methods.

End ProductsAPI_baseURL.

(* ------------------------------------------------------------------ *)
(** * Schema validation ([ajv_schema_validator]) *)

Module SchemaValidator.

Definition LF : string := String (ascii_of_nat 10) EmptyString.

(** Ajv's [ErrorObject], with the two properties the report reads.
    [message] is optional in Ajv's type. *)
Record ErrorObject : Type := {
  instancePath : string;
  message : option string
}.

Section Validator.

(** [response: any] and [schema: object]. *)
Variable Body : Type.
Variable Schema : Type.

(** A compiled validator: the boolean that [validate(response)] returns
    and the value of [validate.errors] after that call ([None] is
    [null]). *)
Definition ValidateFunction : Type :=
  Body -> bool * option (list ErrorObject).

(** The module-level Ajv instance ([allErrors], [strict], no coercion) is
    shared by all calls: [compile] reads and may change its state, and
    throws on a schema it rejects. *)
Variable Ajv : Type.
Variable compile : Ajv -> Schema -> completion ValidateFunction * Ajv.

(** [JSON.stringify(value, null, indent)] *)
Variable JSON_stringify : Body -> nat -> string.

Definition errorLine (error : ErrorObject) : string :=
  "Path: "
  ++ (if truthy (instancePath error) then instancePath error else "root")
  ++ " - " ++ template_string (message error).

Definition failureMessage (errors : list ErrorObject) (response : Body)
  : string :=
  let errorMessages := join LF (map errorLine errors) in
  "Schema validation failed:" ++ LF ++ errorMessages ++ LF ++ LF
  ++ "Actual Response:" ++ LF ++ JSON_stringify response 2.

Definition validateResponseSchema (ajv : Ajv) (response : Body)
           (schema : Schema) : completion bool * Ajv :=
  let (compiled, ajv') := compile ajv schema in
  (validate <- compiled ;;
   let (isValid, errors) := validate response in
   match negb isValid, errors with
   | true, Some errs => Throw (Error (failureMessage errs response))
   | _, _ => Normal isValid
   end,
   ajv').

(** The body conforms when the compiled validator answers [true]. *)
Definition conforms (validate : ValidateFunction) (response : Body) : Prop :=
  fst (validate response) = true.

(** Ajv sets [validate.errors] to an array whenever the validator
    answers [false]. *)
Definition reports_errors (validate : ValidateFunction) (response : Body)
  : Prop :=
  fst (validate response) = false -> snd (validate response) <> None.

End Validator.

End SchemaValidator.

(* ------------------------------------------------------------------ *)
(** * A model of the Ajv instance

    Ajv is a library, not part of the sources.  The model follows what
    [ajv.compile] does with the instance (version 8, [_addSchema] and
    [compile]).  Schema environments are cached by schema object, not by
    content.  A schema object that is not cached yet is first put in the
    cache; then its [$id], if it has one, must not be registered already
    (or compile throws that the key or id already exists) and is
    registered; then the schema is checked against the meta-schema (or
    compile throws that the schema is invalid); at last it is compiled
    and the validator kept in its cache entry.  A cached schema object
    gives its validator, compiled then if it is not yet.

    Bodies are flat objects with string values and a schema lists the
    required properties, so that the model can be run. *)

Module AjvModel.

Import SchemaValidator.

Definition Body : Type := list (string * string).

(** A schema object: the object itself ([reference], two objects with
    the same content have two references), its [$id] ([None] for a
    schema without one) and its [required] list. *)
Record Schema : Type := {
  reference : nat;
  schema_id : option string;
  required : list string
}.

(** Two schema objects with equal content. *)
Definition same_content (s1 s2 : Schema) : Prop :=
  schema_id s1 = schema_id s2 /\ required s1 = required s2.

Definition has_property (response : Body) (key : string) : bool :=
  existsb (fun kv => String.eqb (fst kv) key) response.

Definition missing (response : Body) (keys : list string) : list string :=
  filter (fun key => negb (has_property response key)) keys.

Definition required_error (key : string) : ErrorObject :=
  {| instancePath := EmptyString;
     message := Some ("must have required property '" ++ key ++ "'") |}.

(** The validator of a schema: with [allErrors], one error for every
    required property that is missing. *)
Definition build (schema : Schema) : ValidateFunction Body :=
  fun response =>
    match missing response (required schema) with
    | [] => (true, None)
    | keys => (false, Some (map required_error keys))
    end.

(** The instance: the cache of schema environments, by schema object,
    each with its validator once compiled, and the registered ids. *)
Record Ajv : Type := {
  cache : list (nat * option (ValidateFunction Body));
  refs : list string
}.

(** [new Ajv(...)] *)
Definition new : Ajv := {| cache := []; refs := [] |}.

Fixpoint lookup (entries : list (nat * option (ValidateFunction Body)))
         (object : nat) : option (option (ValidateFunction Body)) :=
  match entries with
  | [] => None
  | (key, validate) :: rest =>
      if Nat.eqb key object then Some validate else lookup rest object
  end.

Fixpoint has_duplicates (keys : list string) : bool :=
  match keys with
  | [] => false
  | key :: rest =>
      existsb (String.eqb key) rest || has_duplicates rest
  end.

Definition quote (s : string) : string :=
  String (ascii_of_nat 34) (s ++ String (ascii_of_nat 34) EmptyString).

(** Compiling a cached schema environment. *)
Definition compileSchemaEnv (ajv : Ajv) (schema : Schema)
  : completion (ValidateFunction Body) * Ajv :=
  let validate := build schema in
  (Normal validate,
   {| cache := (reference schema, Some validate) :: cache ajv;
      refs := refs ajv |}).

(** The meta-schema demands unique items in [required]. *)
Definition validateSchema_then_compile (ajv : Ajv) (schema : Schema)
  : completion (ValidateFunction Body) * Ajv :=
  if has_duplicates (required schema)
  then (Throw (Error "schema is invalid: data/required must NOT have duplicate items"),
        ajv)
  else compileSchemaEnv ajv schema.

Definition compile (ajv : Ajv) (schema : Schema)
  : completion (ValidateFunction Body) * Ajv :=
  match lookup (cache ajv) (reference schema) with
  | Some (Some validate) => (Normal validate, ajv)
  | Some None => compileSchemaEnv ajv schema
  | None =>
      let cached := (reference schema, None) :: cache ajv in
      match schema_id schema with
      | Some key =>
          if existsb (String.eqb key) (refs ajv)
          then (Throw (Error ("schema with key or id " ++ quote key
                              ++ " already exists")),
                {| cache := cached; refs := refs ajv |})
          else validateSchema_then_compile
                 {| cache := cached; refs := key :: refs ajv |} schema
      | None =>
          validateSchema_then_compile
            {| cache := cached; refs := refs ajv |} schema
      end
  end.

Definition stringify_property (indent : nat) (kv : string * string)
  : string :=
  String.concat EmptyString (repeat " " indent) ++ quote (fst kv) ++ ": "
  ++ quote (snd kv).

Definition JSON_stringify (response : Body) (indent : nat) : string :=
  match response with
  | [] => "{}"
  | _ => "{" ++ LF
         ++ join ("," ++ LF) (map (stringify_property indent) response)
         ++ LF ++ "}"
  end.

Definition validateResponseSchema :=
  SchemaValidator.validateResponseSchema compile JSON_stringify.

(** The state of the instance after a sequence of calls. *)
Fixpoint after (calls : list (Body * Schema)) (ajv : Ajv) : Ajv :=
  match calls with
  | [] => ajv
  | (response, schema) :: rest =>
      after rest (snd (validateResponseSchema ajv response schema))
  end.

End AjvModel.

(* ------------------------------------------------------------------ *)
(** * The properties the specification words, as definitions *)

Module Spec.

(** Search relevance: the lowercased term occurs in the lowercased title,
    description or brand; an absent brand contributes no match. *)
Definition matchesSearch (searchTerm : string) (product : Product) : bool :=
  let term := toLowerCase searchTerm in
  includes (toLowerCase (title product)) term
  || includes (toLowerCase (description product)) term
  || match brand product with
     | Some b => includes (toLowerCase b) term
     | None => false
     end.

(** A URL string, as the suite tests it: [/^https?:\/\/.+/]. *)
Definition is_url (s : string) : bool :=
  (String.prefix "http://" s && (7 <? String.length s)%nat)
  || (String.prefix "https://" s && (8 <? String.length s)%nat).

Definition is_integer (q : number) : bool :=
  (Qden (Qred q) =? 1)%positive.

(** The entity constraints of the data model: positive identifier,
    non-empty title and description, positive price, discount percentage
    in 0..100, rating in 0..5, stock a non-negative integer, non-empty
    category, thumbnail a URL, images URLs; brand optional. *)
Definition entity_constraints (product : Product) : bool :=
  Qlt_bool 0 (id product)
  && truthy (title product)
  && truthy (description product)
  && Qlt_bool 0 (price product)
  && Qle_bool 0 (discountPercentage product)
  && Qle_bool (discountPercentage product) 100
  && Qle_bool 0 (rating product)
  && Qle_bool (rating product) 5
  && Qle_bool 0 (stock product)
  && is_integer (stock product)
  && truthy (category product)
  && is_url (thumbnail product)
  && forallb is_url (images product).

(** The canonical identifier of a category, as the category tests
    compute it: [typeof cat === 'string' ? cat : cat.slug || cat.name]. *)
Definition canonicalIdentifier (category : CategoryArg) : option string :=
  match category with
  | CategoryString s => Some s
  | CategoryObject c => if truthy (slug c) then slug c else name c
  end.

(** What [assertProductsMatch] demands of one compared property: a truthy
    expected value must be the actual one. *)
Definition demands {A B} `{Value A} (same : B -> A -> Prop)
           (expected : option A) (actual : B) : Prop :=
  match expected with
  | Some v => truthy v = true -> same actual v
  | None => True
  end.

(** Field-level match over the whole entity: every property that the
    expected partial carries with a truthy value equals the actual one. *)
Definition every_present_field_matches (actual : Product)
           (expected : Partial.Product) : Prop :=
  demands same_number (Partial.id expected) (id actual)
  /\ demands eq (Partial.title expected) (title actual)
  /\ demands eq (Partial.description expected) (description actual)
  /\ demands same_number (Partial.price expected) (price actual)
  /\ demands same_number (Partial.discountPercentage expected)
                 (discountPercentage actual)
  /\ demands same_number (Partial.rating expected) (rating actual)
  /\ demands same_number (Partial.stock expected) (stock actual)
  /\ demands (fun a v => a = Some v) (Partial.brand expected) (brand actual)
  /\ demands eq (Partial.category expected) (category actual)
  /\ demands eq (Partial.thumbnail expected) (thumbnail actual)
  /\ match Partial.images expected with
     | Some v => images actual = v
     | None => True
     end.

(** The segments of a request path, split at ['/']. *)
Fixpoint segments (path : string) : list string :=
  match path with
  | EmptyString => [EmptyString]
  | String c rest =>
      if Ascii.eqb c "/"
      then EmptyString :: segments rest
      else match segments rest with
           | seg :: more => String c seg :: more
           | [] => [String c EmptyString]
           end
  end.

Fixpoint count_slash (s : string) : nat :=
  match s with
  | EmptyString => O
  | String c rest => (if Ascii.eqb c "/" then 1 else 0) + count_slash rest
  end.

(** The products whose searched texts are in the ASCII range. *)
Definition ascii_texts (product : Product) : bool :=
  ascii_only (title product) && ascii_only (description product)
  && match brand product with
     | Some b => ascii_only b
     | None => true
     end.

End Spec.

(* ------------------------------------------------------------------ *)
(** * The operations of the client, as one family *)

Module Operations.

Import Http.

Inductive Operation : Type :=
| GetAllProducts (limit skip : option number)
| GetProductById (id : number)
| SearchProducts (query : string)
| GetCategories
| GetProductsByCategory (category : CategoryArg)
| AddProduct (product : Partial.Product)
| UpdateProduct (id : number) (updates : Partial.Product)
| PatchProduct (id : number) (updates : Partial.Product)
| DeleteProduct (id : number).

Section Call.

Variable Json : Type.
Variable Number_toString : number -> string.

(** Calling the method of [ProductsAPI] that the operation names. *)
Definition call (this : ProductsAPI.t Json) (op : Operation)
  : io (ProductsAPI.ApiResponse Json) :=
  match op with
  | GetAllProducts limit skip => ProductsAPI.getAllProducts this limit skip
  | GetProductById id => ProductsAPI.getProductById Number_toString this id
  | SearchProducts query => ProductsAPI.searchProducts this query
  | GetCategories => ProductsAPI.getCategories this
  | GetProductsByCategory category =>
      ProductsAPI.getProductsByCategory this category
  | AddProduct product => ProductsAPI.addProduct this product
  | UpdateProduct id updates =>
      ProductsAPI.updateProduct Number_toString this id updates
  | PatchProduct id updates =>
      ProductsAPI.patchProduct Number_toString this id updates
  | DeleteProduct id => ProductsAPI.deleteProduct Number_toString this id
  end.

(** What every operation does with the response it receives. *)
Definition envelope (response : APIResponse Json)
  : completion (ProductsAPI.ApiResponse Json) :=
  data <- Http.json response ;;
  Normal {| ProductsAPI.data := data;
            ProductsAPI.status := Http.status response;
            ProductsAPI.ok := Http.ok response;
            ProductsAPI.statusText := Http.statusText response;
            ProductsAPI.headers := Http.headers response |}.

(** The request that the operation sends. *)
Definition request_of (op : Operation) : Request :=
  match op with
  | GetAllProducts limit skip =>
      {| method := GET; target := "/products";
         params := [("limit", ParamNumber (default (30 : number) limit));
                    ("skip", ParamNumber (default (0 : number) skip))];
         body := None |}
  | GetProductById id =>
      {| method := GET; target := "/products/" ++ Number_toString id;
         params := []; body := None |}
  | SearchProducts query =>
      {| method := GET; target := "/products/search";
         params := [("q", ParamString query)]; body := None |}
  | GetCategories =>
      {| method := GET; target := "/products/categories";
         params := []; body := None |}
  | GetProductsByCategory (CategoryString s) =>
      {| method := GET; target := "/products/category/" ++ s;
         params := []; body := None |}
  | GetProductsByCategory (CategoryObject c) =>
      {| method := GET;
         target := "/products/category/" ++ template_string (slug c);
         params := []; body := None |}
  | AddProduct product =>
      {| method := POST; target := "/products/add";
         params := []; body := Some product |}
  | UpdateProduct id updates =>
      {| method := PUT; target := "/products/" ++ Number_toString id;
         params := []; body := Some updates |}
  | PatchProduct id updates =>
      {| method := PATCH; target := "/products/" ++ Number_toString id;
         params := []; body := Some updates |}
  | DeleteProduct id =>
      {| method := DELETE; target := "/products/" ++ Number_toString id;
         params := []; body := None |}
  end.

End Call.

(** Two responses that differ at most in the status line. *)
Definition same_but_status {Json} (r r' : APIResponse Json) : Prop :=
  Http.headers r = Http.headers r' /\ Http.json r = Http.json r'.

(** Two servers that answer alike except for the status line. *)
Definition alike_but_status {Json} (server server' : APIRequestContext Json)
  : Prop :=
  forall req,
    match server req, server' req with
    | Normal r, Normal r' => same_but_status r r'
    | Throw e, Throw e' => e = e'
    | _, _ => False
    end.

Section CallBaseURL.

Variable Json : Type.
Variable Number_toString : number -> string.

(** Calling the method of the revision with a base URL. *)
Definition call_baseURL (this : ProductsAPI_baseURL.t Json) (op : Operation)
  : io Json :=
  match op with
  | GetAllProducts limit skip =>
      ProductsAPI_baseURL.getAllProducts this limit skip
  | GetProductById id =>
      ProductsAPI_baseURL.getProductById Number_toString this id
  | SearchProducts query => ProductsAPI_baseURL.searchProducts this query
  | GetCategories => ProductsAPI_baseURL.getCategories this
  | GetProductsByCategory category =>
      ProductsAPI_baseURL.getProductsByCategory this category
  | AddProduct product => ProductsAPI_baseURL.addProduct this product
  | UpdateProduct id updates =>
      ProductsAPI_baseURL.updateProduct Number_toString this id updates
  | PatchProduct id updates =>
      ProductsAPI_baseURL.patchProduct Number_toString this id updates
  | DeleteProduct id =>
      ProductsAPI_baseURL.deleteProduct Number_toString this id
  end.

End CallBaseURL.

(** The request with its target under a base URL. *)
Definition with_base (base : string) (req : Request) : Request :=
  {| method := method req; target := base ++ target req;
     params := params req; body := body req |}.

(** Every argument but a structured category. *)
Definition plain_argument (op : Operation) : Prop :=
  match op with
  | GetProductsByCategory (CategoryObject _) => False
  | _ => True
  end.

End Operations.

(* ------------------------------------------------------------------ *)
(** * Utility functions ([lib/helpers/utils]) *)

Module Utils.

(** [sanitizeString(str)]: [str.trim().toLowerCase()] *)
Definition sanitizeString (str : string) : string :=
  toLowerCase (trim str).

(** [isResponseTimeAcceptable(responseTime, threshold = 2000)] *)
Definition isResponseTimeAcceptable (responseTime : number)
           (threshold : option number) : bool :=
  let threshold := default (2000 : number) threshold in
  Qlt_bool responseTime threshold.

End Utils.

(* ------------------------------------------------------------------ *)
(** * Checks written in the test specifications *)

Module Tests.

(** The search tests: [`${product.title} ${product.description}
    ${product.brand}`.toLowerCase()]. *)
Definition combinedText (product : Product) : string :=
  toLowerCase (title product ++ " " ++ description product ++ " "
               ++ template_string (brand product)).

(** The loop body of the search with a partial product name. *)
Definition partialNameCheck (searchTerm : string) (product : Product)
  : completion unit :=
  let combinedText := combinedText product in
  toContain (expect combinedText) (toLowerCase searchTerm).

(** The loop body of the search with a multi-word query. *)
Definition multiWordCheck (searchTerm : string) (product : Product)
  : completion unit :=
  let searchWords := split " " (toLowerCase searchTerm) in
  let combinedText := combinedText product in
  let hasMatch := some searchWords (fun word => includes combinedText word) in
  toBeTruthy (expect hasMatch).

(** The pages and categories tests: the ids of the first listing that
    occur in the second, and the expectation that there are none. *)
Definition overlap (ids1 ids2 : list number) : list number :=
  Array_filter ids1 (fun id => Array_includes ids2 id).

Definition noOverlapCheck (products1 products2 : list Product)
  : completion unit :=
  let ids1 := map id products1 in
  let ids2 := map id products2 in
  let overlap := overlap ids1 ids2 in
  toBe (expect (Array_length overlap)) 0.

(** The loop body of the test that category names match exactly. *)
Definition exactCategoryCheck (categoryName : string) (product : Product)
  : completion unit :=
  toBe (expect (category product)) categoryName ;;
  not_toBe (expect (category product)) (toUpperCase categoryName).

(** The test of a custom page size, on the decoded listing. *)
Definition customPaginationChecks (data : ProductsResponse)
           (limit' : number) : completion unit :=
  ProductAssertions.assertValidProductsResponse data ;;
  ProductAssertions.assertPagination data 0 limit' ;;
  toBeLessThanOrEqual (expect (Array_length (products data))) limit'.

End Tests.

(* ------------------------------------------------------------------ *)
(** * Fixture data ([test-data] and products as the service returns them) *)

Module Fixtures.

Definition iPhone9 : Product :=
  {| id := 1;
     title := "iPhone 9";
     description := "An apple mobile which is nothing like apple";
     price := 549;
     discountPercentage := 1296 # 100;
     rating := 469 # 100;
     stock := 94;
     brand := Some "Apple";
     category := "smartphones";
     thumbnail := "https://i.dummyjson.com/data/products/1/thumbnail.jpg";
     images := ["https://i.dummyjson.com/data/products/1/1.jpg";
                "https://i.dummyjson.com/data/products/1/2.jpg"] |}.

(** The same product with a discount percentage of 150. *)
Definition overDiscounted : Product :=
  {| id := 1;
     title := "iPhone 9";
     description := "An apple mobile which is nothing like apple";
     price := 549;
     discountPercentage := 150;
     rating := 469 # 100;
     stock := 94;
     brand := Some "Apple";
     category := "smartphones";
     thumbnail := "https://i.dummyjson.com/data/products/1/thumbnail.jpg";
     images := ["https://i.dummyjson.com/data/products/1/1.jpg";
                "https://i.dummyjson.com/data/products/1/2.jpg"] |}.

(** A product decoded without a [brand] property. *)
Definition phoneStand : Product :=
  {| id := 101;
     title := "Phone Stand";
     description := "Adjustable holder for any phone";
     price := 1299 # 100;
     discountPercentage := 5;
     rating := 4;
     stock := 25;
     brand := None;
     category := "mobile-accessories";
     thumbnail := "https://cdn.dummyjson.com/products/101/thumbnail.png";
     images := ["https://cdn.dummyjson.com/products/101/1.png"] |}.

(** [sampleProduct] of the fixtures. *)
Definition sampleProduct : Partial.Product :=
  {| Partial.id := None;
     Partial.title := Some "Test Product";
     Partial.description := Some "This is a test product for API testing";
     Partial.price := Some (Finite (9999 # 100));
     Partial.discountPercentage := Some (Finite (105 # 10));
     Partial.rating := Some (Finite (45 # 10));
     Partial.stock := Some (Finite 100);
     Partial.brand := Some "Test Brand";
     Partial.category := Some "smartphones";
     Partial.thumbnail := None;
     Partial.images := None |}.

(** What the service could answer to a creation with [sampleProduct]:
    every compared property echoed, the discount percentage not. *)
Definition createdProduct : Product :=
  {| id := 195;
     title := "Test Product";
     description := "This is a test product for API testing";
     price := 9999 # 100;
     discountPercentage := 20;
     rating := 45 # 10;
     stock := 100;
     brand := Some "Test Brand";
     category := "smartphones";
     thumbnail := "https://cdn.dummyjson.com/products/195/thumbnail.png";
     images := [] |}.

(** [{ price: 0 }], the update of the price-to-zero scenario. *)
Definition priceZero : Partial.Product :=
  {| Partial.id := None;
     Partial.title := None;
     Partial.description := None;
     Partial.price := Some (Finite 0);
     Partial.discountPercentage := None;
     Partial.rating := None;
     Partial.stock := None;
     Partial.brand := None;
     Partial.category := None;
     Partial.thumbnail := None;
     Partial.images := None |}.

Definition smartphones : Category :=
  {| slug := Some "smartphones";
     name := Some "Smartphones";
     url := Some "https://dummyjson.com/products/category/smartphones" |}.

(** A category record that carries a name and no slug. *)
Definition nameOnly : Category :=
  {| slug := None;
     name := Some "Smartphones";
     url := Some "https://dummyjson.com/products/category/smartphones" |}.

(** The decoded bodies of the fixtures are flat objects. *)
Definition Json : Type := list (string * string).

(** The answer of the service to the identifier 999999. *)
Definition notFound : Http.APIResponse Json :=
  {| Http.status := 404;
     Http.ok := false;
     Http.statusText := "Not Found";
     Http.headers := [("content-type", "application/json; charset=utf-8")];
     Http.json :=
       Normal [("message", "Product with id '999999' not found")] |}.

Definition notFoundServer : Http.APIRequestContext Json :=
  fun _ => Normal notFound.

(** The same body and headers under the status 200. *)
Definition sameBodyOk : Http.APIResponse Json :=
  {| Http.status := 200;
     Http.ok := true;
     Http.statusText := "OK";
     Http.headers := [("content-type", "application/json; charset=utf-8")];
     Http.json :=
       Normal [("message", "Product with id '999999' not found")] |}.

(** A gateway page in place of a JSON body. *)
Definition badGateway : Http.APIResponse Json :=
  {| Http.status := 502;
     Http.ok := false;
     Http.statusText := "Bad Gateway";
     Http.headers := [("content-type", "text/html")];
     Http.json := Throw (SyntaxError "Unexpected token < in JSON at position 0") |}.

(** [`${id}`] on the integral identifiers of the fixtures. *)
Definition Number_toString (q : number) : string :=
  NilZero.string_of_int (Z.to_int (Qfloor q)).

(** A category record whose slug is the empty string. *)
Definition emptySlug : Category :=
  {| slug := Some EmptyString;
     name := Some "Smartphones";
     url := Some "https://dummyjson.com/products/category/smartphones" |}.

(** The schema of a product, as the module of the schema document holds
    it, and a second object with the same content, as decoding the
    document again gives. *)
Definition productSchema : AjvModel.Schema :=
  {| AjvModel.reference := 1;
     AjvModel.schema_id := Some "https://dummyjson.com/schemas/product";
     AjvModel.required := ["id"; "title"] |}.

Definition productSchemaAgain : AjvModel.Schema :=
  {| AjvModel.reference := 2;
     AjvModel.schema_id := Some "https://dummyjson.com/schemas/product";
     AjvModel.required := ["id"; "title"] |}.

Definition productBody : AjvModel.Body :=
  [("id", "1"); ("title", "iPhone 9")].

Definition untitledBody : AjvModel.Body := [("id", "1")].

Definition firstPage : ProductsResponse :=
  {| products := [iPhone9]; total := 100; skip := 0; limit := 10 |}.

(** The first page with the skip echoed as [-0], as the JSON text [-0]
    decodes. *)
Definition negativeZeroPage : ProductsResponse :=
  {| products := [iPhone9]; total := 100; skip := NegativeZero;
     limit := 10 |}.

(** The envelope of a search without a match. *)
Definition noMatch : ProductsResponse :=
  {| products := []; total := 0; skip := 0; limit := 30 |}.

End Fixtures.

(* ------------------------------------------------------------------ *)
(** * Facts about completions, matchers and strings *)

Import ProductAssertions.

Lemma Qlt_bool_iff (x y : Q) : Qlt_bool x y = true <-> x < y.
Proof.
  unfold Qlt_bool. rewrite negb_true_iff. split.
  - intros H. apply Qnot_le_lt. intros Hle.
    apply Qle_bool_iff in Hle. congruence.
  - intros H. destruct (Qle_bool y x) eqn:E; [|reflexivity].
    apply Qle_bool_iff in E. apply Qlt_not_le in H. contradiction.
Qed.

Lemma passes_check (matcher : string) (b : bool) :
  passes (check matcher b) <-> b = true.
Proof.
  unfold passes, check. destruct b; split; intros H; congruence.
Qed.

Lemma passes_seq (c k : completion unit) :
  passes (c ;; k) <-> passes c /\ passes k.
Proof.
  unfold passes. destruct c as [[]|e]; simpl; split.
  - auto.
  - intros [_ H]; exact H.
  - discriminate.
  - intros [H _]; discriminate.
Qed.

Lemma passes_toBeDefined {A} (a : A) : passes (toBeDefined a) <-> True.
Proof. unfold passes, toBeDefined. tauto. Qed.

Lemma truthy_string (s : string) : truthy s = true <-> s <> EmptyString.
Proof.
  simpl. rewrite negb_true_iff. apply String.eqb_neq.
Qed.

Lemma truthy_number (q : number) : truthy q = true <-> ~ q == 0.
Proof.
  simpl. rewrite negb_true_iff. split.
  - intros H Hq. apply Qeq_bool_iff in Hq. congruence.
  - intros H. destruct (Qeq_bool q 0) eqn:E; [|reflexivity].
    apply Qeq_bool_iff in E. contradiction.
Qed.

(** [Object.is] on numbers: the same value and, at zero, the same sign. *)
Lemma Object_is_number (a b : number) :
  Object_is a b = true <-> SameValue a b.
Proof.
  unfold SameValue. destruct a as [|p], b as [|q]; simpl.
  - split; [intros _; split; reflexivity | reflexivity].
  - split; [discriminate | intros [_ H]; discriminate].
  - split; [discriminate | intros [_ H]; discriminate].
  - rewrite Qeq_bool_iff. split; [intros H; split; [exact H | reflexivity]|].
    intros [H _]. exact H.
Qed.

(** Away from zero [Object.is] is the equality of the values. *)
Lemma SameValue_nonzero (a b : number) :
  ~ b == 0 -> (SameValue a b <-> a == b).
Proof.
  intros Hnz. unfold SameValue. split; [intros [H _]; exact H|].
  intros H. split; [exact H|].
  destruct a as [|p], b as [|q]; simpl in *; try reflexivity.
  - exfalso. apply Hnz. symmetry. exact H.
  - exfalso. apply Hnz. reflexivity.
Qed.

Lemma passes_not_throws (c : completion unit) : passes c <-> ~ throws c.
Proof.
  unfold passes, throws. destruct c as [[]|e]; split.
  - intros _ [e H]. discriminate.
  - reflexivity.
  - discriminate.
  - intros H. exfalso. apply H. exists e. reflexivity.
Qed.

(** The guarded brand check of [assertValidProduct] can never fail. *)
Lemma brand_check_passes (b : option string) :
  passes (if truthy b then toBeTruthy (expect b) else Normal tt).
Proof.
  destruct (truthy b) eqn:E.
  - unfold toBeTruthy, expect. apply passes_check. exact E.
  - reflexivity.
Qed.

Ltac matchers :=
  unfold toBeTruthy, toBe, toBeGreaterThan, toBeGreaterThanOrEqual,
    toBeLessThanOrEqual, expect;
  rewrite ?passes_seq, ?passes_check, ?passes_toBeDefined,
    ?Qlt_bool_iff, ?Qle_bool_iff, ?truthy_string.

(* ------------------------------------------------------------------ *)
(** * [assertValidProduct] *)

(** C2 (as amended): [assertValidProduct] accepts exactly the products
    with a positive id, a non-empty title and description, a positive
    price, a non-negative discount percentage, a rating between 0 and 5,
    a non-negative stock, a non-empty category and a non-empty thumbnail;
    the brand and the images never make it raise. *)
Theorem assertValidProduct_accepts (product : Product) :
  passes (assertValidProduct product) <->
    0 < id product
    /\ title product <> EmptyString
    /\ description product <> EmptyString
    /\ 0 < price product
    /\ 0 <= discountPercentage product
    /\ (0 <= rating product /\ rating product <= 5)
    /\ 0 <= stock product
    /\ category product <> EmptyString
    /\ thumbnail product <> EmptyString.
Proof.
  unfold assertValidProduct. matchers.
  pose proof (brand_check_passes (brand product)) as Hbrand.
  unfold Array_isArray. simpl (truthy true). tauto.
Qed.

(** [assertValidProduct] accepts a product with a discount percentage of
    150, which the entity constraints of the data model exclude. *)
Lemma assertValidProduct_accepts_discount_150 :
  passes (assertValidProduct Fixtures.overDiscounted)
  /\ ~ discountPercentage Fixtures.overDiscounted <= 100
  /\ Spec.entity_constraints Fixtures.overDiscounted = false
  /\ ~ (forall product,
          passes (assertValidProduct product) <->
          Spec.entity_constraints product = true).
Proof.
  assert (Hp : passes (assertValidProduct Fixtures.overDiscounted))
    by reflexivity.
  assert (Hc : Spec.entity_constraints Fixtures.overDiscounted = false)
    by reflexivity.
  repeat split; trivial.
  - intros H. apply Qle_bool_iff in H. vm_compute in H. discriminate.
  - intros H. apply H in Hp. congruence.
Qed.

(* ------------------------------------------------------------------ *)
(** * [assertValidProductsResponse] *)

(** C5: [assertValidProductsResponse] accepts exactly the envelopes whose
    products are an array, whose total is strictly positive, whose skip is
    non-negative, whose limit is strictly positive and whose number of
    products is at most the limit; it raises on every envelope whose total
    is 0. *)
Theorem assertValidProductsResponse_accepts (response : ProductsResponse) :
  (passes (assertValidProductsResponse response) <->
     Array_isArray (products response) = true
     /\ 0 < total response
     /\ 0 <= skip response
     /\ 0 < limit response
     /\ Array_length (products response) <= limit response)
  /\ (total response == 0 ->
      throws (assertValidProductsResponse response)).
Proof.
  assert (Hiff :
    passes (assertValidProductsResponse response) <->
     Array_isArray (products response) = true
     /\ 0 < total response
     /\ 0 <= skip response
     /\ 0 < limit response
     /\ Array_length (products response) <= limit response).
  { unfold assertValidProductsResponse. matchers.
    simpl (truthy _). tauto. }
  split; [exact Hiff|].
  intros Hzero.
  destruct (assertValidProductsResponse response) as [[]|e] eqn:E.
  - exfalso. assert (Hpass : passes (Normal tt)) by reflexivity.
    apply Hiff in Hpass. destruct Hpass as (_ & Hlt & _).
    rewrite Hzero in Hlt. apply (Qlt_irrefl 0). exact Hlt.
  - exists e. reflexivity.
Qed.

Lemma assertValidProductsResponse_accepts_witness :
  total Fixtures.noMatch == 0
  /\ throws (assertValidProductsResponse Fixtures.noMatch).
Proof.
  split; [reflexivity|].
  apply (proj2 (assertValidProductsResponse_accepts Fixtures.noMatch)).
  reflexivity.
Defined.

(* ------------------------------------------------------------------ *)
(** * [assertPagination] *)

Lemma passes_assertPagination (response : ProductsResponse)
      (expectedSkip expectedLimit : number) :
  passes (assertPagination response expectedSkip expectedLimit) <->
    SameValue (skip response) expectedSkip
    /\ SameValue (limit response) expectedLimit
    /\ Array_length (products response) <= expectedLimit.
Proof.
  unfold assertPagination. matchers.
  rewrite !Object_is_number. tauto.
Qed.

(** C6 (as amended): [assertPagination response expectedSkip
    expectedLimit] succeeds if and only if the echoed skip and the echoed
    limit are the requested values in the sense of [Object.is], equal in
    value and, at zero, of the same sign, and the number of returned
    products is at most the requested limit. *)
Theorem assertPagination_succeeds (response : ProductsResponse)
        (expectedSkip expectedLimit : number) :
  passes (assertPagination response expectedSkip expectedLimit) <->
    (skip response == expectedSkip
     /\ is_negative_zero (skip response) = is_negative_zero expectedSkip)
    /\ (limit response == expectedLimit
        /\ is_negative_zero (limit response)
           = is_negative_zero expectedLimit)
    /\ Array_length (products response) <= expectedLimit.
Proof. apply passes_assertPagination. Qed.

(** A page that echoes the skip as [-0]: the echoed skip and limit equal
    the requested 0 and 10 and the page holds one product, and yet
    [assertPagination] throws, because [toBe] tells [-0] from [0]. *)
Lemma assertPagination_negative_zero :
  skip Fixtures.negativeZeroPage == 0
  /\ limit Fixtures.negativeZeroPage == 10
  /\ Array_length (products Fixtures.negativeZeroPage) <= 10
  /\ assertPagination Fixtures.negativeZeroPage 0 10
     = Throw (ExpectError "toBe")
  /\ ~ (forall response (expectedSkip expectedLimit : number),
          passes (assertPagination response expectedSkip expectedLimit) <->
          skip response == expectedSkip
          /\ limit response == expectedLimit
          /\ Array_length (products response) <= expectedLimit).
Proof.
  assert (Hs : skip Fixtures.negativeZeroPage == 0) by reflexivity.
  assert (Hl : limit Fixtures.negativeZeroPage == 10) by reflexivity.
  assert (Hn : Array_length (products Fixtures.negativeZeroPage) <= 10)
    by (apply Qle_bool_iff; reflexivity).
  repeat split; trivial.
  intros Hall.
  assert (Hp : passes (assertPagination Fixtures.negativeZeroPage 0 10))
    by (apply Hall; repeat split; assumption).
  discriminate Hp.
Qed.

(* ------------------------------------------------------------------ *)
(** * [assertProductsMatch] *)

Lemma passes_if_truthy {A} `{Value A} (v : option A)
      (k : A -> completion unit) :
  passes (if_truthy v k) <->
    match v with
    | Some a => truthy a = true -> passes (k a)
    | None => True
    end.
Proof.
  unfold if_truthy. destruct v as [a|].
  - destruct (truthy a); split; intros Hp.
    + intros _. exact Hp.
    + apply Hp. reflexivity.
    + intros Hf. discriminate.
    + reflexivity.
  - split; intros _; [exact I | reflexivity].
Qed.

Lemma passes_toBe_string (received expected : string) :
  passes (toBe (expect received) expected) <-> received = expected.
Proof.
  unfold toBe, expect. rewrite passes_check. apply String.eqb_eq.
Qed.

Lemma passes_toBe_number (received expected : number) :
  passes (toBe (expect received) expected) <-> SameValue received expected.
Proof.
  unfold toBe, expect. rewrite passes_check. apply Object_is_number.
Qed.

Lemma passes_toBe_optional (received : option string) (expected : string) :
  passes (toBe (expect received) (Some expected)) <->
  received = Some expected.
Proof.
  unfold toBe, expect. rewrite passes_check.
  destruct received as [r|]; simpl.
  - rewrite String.eqb_eq. split; congruence.
  - split; discriminate.
Qed.

Lemma demands_string (expected : option string) (actual : string) :
  passes (if_truthy expected (fun v => toBe (expect actual) v)) <->
  Spec.demands eq expected actual.
Proof.
  rewrite passes_if_truthy. unfold Spec.demands.
  destruct expected as [v|]; [|tauto].
  rewrite passes_toBe_string. tauto.
Qed.

Lemma demands_number (expected : option number) (actual : number) :
  passes (if_truthy expected (fun v => toBe (expect actual) v)) <->
  Spec.demands same_number expected actual.
Proof.
  rewrite passes_if_truthy. unfold Spec.demands, same_number.
  destruct expected as [v|]; [|tauto].
  rewrite passes_toBe_number.
  split; intros H Ht; specialize (H Ht); apply truthy_number in Ht.
  - apply (proj1 (@SameValue_nonzero actual v Ht)). exact H.
  - apply (proj2 (@SameValue_nonzero actual v Ht)). exact H.
Qed.

Lemma demands_optional (expected : option string) (actual : option string) :
  passes (if_truthy expected (fun v => toBe (expect actual) (Some v))) <->
  Spec.demands (fun a v => a = Some v) expected actual.
Proof.
  rewrite passes_if_truthy. unfold Spec.demands.
  destruct expected as [v|]; [|tauto].
  rewrite passes_toBe_optional. tauto.
Qed.

(** C4 (as amended): [assertProductsMatch] compares seven properties,
    title, price, description, rating, stock, brand and category: it
    passes exactly when each of them whose expected value is present and
    truthy equals the actual one.  The expected id, discount percentage,
    thumbnail and images are never read, and an expected price of 0 has
    the effect of an omitted price. *)
Theorem assertProductsMatch_compares_seven (actual : Product)
        (expected : Partial.Product) :
  (passes (assertProductsMatch actual expected) <->
     Spec.demands eq (Partial.title expected) (title actual)
     /\ Spec.demands same_number (Partial.price expected) (price actual)
     /\ Spec.demands eq (Partial.description expected) (description actual)
     /\ Spec.demands same_number (Partial.rating expected) (rating actual)
     /\ Spec.demands same_number (Partial.stock expected) (stock actual)
     /\ Spec.demands (fun a v => a = Some v)
                     (Partial.brand expected) (brand actual)
     /\ Spec.demands eq (Partial.category expected) (category actual))
  /\ (forall i d t im,
        assertProductsMatch actual (Partial.with_unread i d t im expected)
        = assertProductsMatch actual expected)
  /\ assertProductsMatch actual (Partial.with_price (Some (Finite 0)) expected)
     = assertProductsMatch actual (Partial.with_price None expected).
Proof.
  split; [|split].
  - unfold assertProductsMatch. rewrite !passes_seq.
    rewrite !demands_string, !demands_number, demands_optional.
    tauto.
  - intros i d t im. reflexivity.
  - reflexivity.
Qed.

(** An expected [{ price: 0 }] passes against every actual product. *)
Lemma assertProductsMatch_price_zero (actual : Product) :
  passes (assertProductsMatch actual Fixtures.priceZero).
Proof. reflexivity. Qed.

(** [sampleProduct] carries a discount percentage of 10.5; the helper
    passes on a product whose discount percentage is 20. *)
Lemma assertProductsMatch_ignores_discountPercentage :
  Partial.discountPercentage Fixtures.sampleProduct
  = Some (Finite (105 # 10))
  /\ ~ discountPercentage Fixtures.createdProduct == 105 # 10
  /\ passes (assertProductsMatch Fixtures.createdProduct
                                 Fixtures.sampleProduct)
  /\ ~ (forall actual expected,
          passes (assertProductsMatch actual expected) ->
          Spec.every_present_field_matches actual expected).
Proof.
  assert (Hne : ~ discountPercentage Fixtures.createdProduct == 105 # 10).
  { intros H. apply Qeq_bool_iff in H. vm_compute in H. discriminate. }
  split; [reflexivity|]. split; [exact Hne|]. split; [reflexivity|].
  intros Hall.
  assert (Hp : passes (assertProductsMatch Fixtures.createdProduct
                                           Fixtures.sampleProduct))
    by reflexivity.
  apply Hall in Hp. destruct Hp as (_ & _ & _ & _ & Hd & _).
  apply Hne. apply Hd. reflexivity.
Qed.

(* ------------------------------------------------------------------ *)
(** * [assertProductsMatchSearch] *)

Lemma forEach_passes {A} (xs : list A) (f : A -> completion unit) :
  passes (forEach xs f) <-> Forall (fun x => passes (f x)) xs.
Proof.
  induction xs as [|x r IH]; simpl.
  - split; intros _; [constructor | reflexivity].
  - change (passes (f x ;; forEach r f) <->
            Forall (fun x => passes (f x)) (x :: r)).
    rewrite passes_seq, IH. split.
    + intros [Hx Hr]. constructor; assumption.
    + intros H. inversion H; subst. split; assumption.
Qed.

Lemma forEach_throws {A} (xs : list A) (f : A -> completion unit) (x : A) :
  In x xs -> throws (f x) -> throws (forEach xs f).
Proof.
  intros Hin Hx.
  destruct (forEach xs f) as [[]|e] eqn:E; [|exists e; reflexivity].
  exfalso. assert (Hall : passes (forEach xs f)) by exact E.
  apply forEach_passes in Hall. rewrite Forall_forall in Hall.
  apply Hall in Hin. apply passes_not_throws in Hin. contradiction.
Qed.

(** On a product that carries a brand the loop body checks the search
    relevance of the specification. *)
Lemma search_body_with_brand (product : Product) (searchTerm b : string) :
  brand product = Some b ->
  (passes (assertProductsMatchSearch [product] searchTerm) <->
   Spec.matchesSearch searchTerm product = true).
Proof.
  intros Hb. unfold assertProductsMatchSearch, Spec.matchesSearch.
  simpl forEach. rewrite Hb. simpl.
  unfold toBeTruthy, expect, check. simpl truthy.
  destruct (includes (toLowerCase (title product)) (toLowerCase searchTerm)
            || includes (toLowerCase (description product))
                        (toLowerCase searchTerm)
            || includes (toLowerCase b) (toLowerCase searchTerm));
    simpl; unfold passes; split; congruence.
Qed.

(** When every product carries a brand, the helper succeeds exactly when
    every product is relevant to the search term. *)
Lemma assertProductsMatchSearch_with_brands (products : list Product)
      (searchTerm : string) :
  Forall (fun product => brand product <> None) products ->
  (passes (assertProductsMatchSearch products searchTerm) <->
   forallb (Spec.matchesSearch searchTerm) products = true).
Proof.
  intros Hbrands. unfold assertProductsMatchSearch.
  rewrite forEach_passes, forallb_forall, Forall_forall.
  rewrite Forall_forall in Hbrands.
  assert (Hsome : forall product, In product products ->
                    exists b, brand product = Some b).
  { intros product Hin. destruct (brand product) as [b|] eqn:Hb.
    - exists b. reflexivity.
    - exfalso. apply (Hbrands product Hin). exact Hb. }
  split; intros H product Hin; destruct (Hsome product Hin) as [b Hb].
  - apply (search_body_with_brand product searchTerm Hb).
    unfold assertProductsMatchSearch. simpl forEach.
    apply passes_seq. split; [apply H; exact Hin | reflexivity].
  - pose proof (proj2 (search_body_with_brand product searchTerm Hb)
                      (H product Hin)) as Hp.
    unfold assertProductsMatchSearch in Hp. simpl forEach in Hp.
    apply passes_seq in Hp. exact (proj1 Hp).
Qed.

Lemma lower_ascii_idempotent (c : ascii) :
  lower_ascii (lower_ascii c) = lower_ascii c.
Proof.
  destruct c as [[] [] [] [] [] [] [] []]; reflexivity.
Qed.

Lemma toLowerCase_idempotent (s : string) :
  toLowerCase (toLowerCase s) = toLowerCase s.
Proof.
  induction s as [|c s IH]; simpl; [reflexivity|].
  now rewrite lower_ascii_idempotent, IH.
Qed.

(** The relevance check does not see the case of the search term. *)
Lemma matchesSearch_case_insensitive (searchTerm : string)
      (product : Product) :
  Spec.matchesSearch (toLowerCase searchTerm) product
  = Spec.matchesSearch searchTerm product.
Proof.
  unfold Spec.matchesSearch. now rewrite toLowerCase_idempotent.
Qed.

(** A product without a brand makes the helper throw, whatever its title
    and description are. *)
Lemma assertProductsMatchSearch_absent_brand (products : list Product)
      (searchTerm : string) (product : Product) :
  In product products ->
  brand product = None ->
  throws (assertProductsMatchSearch products searchTerm).
Proof.
  intros Hin Hb. unfold assertProductsMatchSearch.
  apply forEach_throws with (x := product); [exact Hin|].
  rewrite Hb. simpl. eexists. reflexivity.
Qed.

(** C1 (the code departs from it): on the one-product list
    [[phoneStand]], whose title contains the term [phone] and which has no
    brand, the relevance of the specification holds and yet
    [assertProductsMatchSearch] throws a [TypeError], raised by
    [product.brand.toLowerCase()]. *)
Theorem assertProductsMatchSearch_throws_without_brand :
  brand Fixtures.phoneStand = None
  /\ forallb (Spec.matchesSearch "phone") [Fixtures.phoneStand] = true
  /\ assertProductsMatchSearch [Fixtures.phoneStand] "phone"
     = Throw (TypeError
         "Cannot read properties of undefined (reading 'toLowerCase')").
Proof. repeat split. Qed.

(* ------------------------------------------------------------------ *)
(** * The client wrapper *)

Section ClientFacts.

Import Http Operations.

Variable Json : Type.
Variable Number_toString : number -> string.

Lemma send_then_envelope (server : APIRequestContext Json) (req : Request) :
  Http.bind (send server req)
    (fun response =>
       Http.bind (await (Http.json response))
         (fun data =>
            ret {| ProductsAPI.data := data;
                   ProductsAPI.status := Http.status response;
                   ProductsAPI.ok := Http.ok response;
                   ProductsAPI.statusText := Http.statusText response;
                   ProductsAPI.headers := Http.headers response |}))
  = ([req], response <- server req ;; envelope response).
Proof.
  unfold send, Http.bind, await, ret, envelope.
  destruct (server req) as [response|e]; simpl; [|reflexivity].
  destruct (Http.json response) as [data|e]; reflexivity.
Qed.

(** Each operation sends the one request [request_of] describes and wraps
    the response. *)
Lemma call_unfold (this : ProductsAPI.t Json) (op : Operation) :
  call Number_toString this op
  = ([request_of Number_toString op],
     response <- ProductsAPI.request this (request_of Number_toString op) ;;
     envelope response).
Proof.
  destruct op as [l s|i|q| |[s|c]|p|i u|i u|i]; simpl;
    unfold ProductsAPI.getAllProducts, ProductsAPI.getProductById,
      ProductsAPI.searchProducts, ProductsAPI.getCategories,
      ProductsAPI.getProductsByCategory, ProductsAPI.addProduct,
      ProductsAPI.updateProduct, ProductsAPI.patchProduct,
      ProductsAPI.deleteProduct, get, post, put, patch, delete;
    apply send_then_envelope.
Qed.

Lemma status_in_2xx (response : APIResponse Json) :
  ok_contract response ->
  (Http.ok response = true <->
   (200 <= Http.status response <= 299)%Z).
Proof.
  unfold ok_contract. intros ->.
  rewrite andb_true_iff, !Z.leb_le. tauto.
Qed.

(** Whether an operation throws does not depend on the status. *)
Lemma call_throws_alike (this this' : ProductsAPI.t Json) (op : Operation)
      (e : exn) :
  alike_but_status (ProductsAPI.request this) (ProductsAPI.request this') ->
  (outcome (call Number_toString this op) = Throw e <->
   outcome (call Number_toString this' op) = Throw e).
Proof.
  intros Halike. rewrite !call_unfold. unfold outcome. simpl.
  specialize (Halike (request_of Number_toString op)).
  destruct (ProductsAPI.request this (request_of Number_toString op))
    as [r|e1];
    destruct (ProductsAPI.request this' (request_of Number_toString op))
    as [r'|e2]; try contradiction; simpl.
  - destruct Halike as [_ Hsame]. unfold envelope. rewrite Hsame.
    destruct (Http.json r') as [d|e3]; simpl; split; congruence.
  - subst e2. tauto.
Qed.

(** C8 (as amended): for every completed exchange, each operation of the
    client sends its one request; when the body decodes as JSON it
    returns an envelope with that body, and when the body does not decode
    it throws the error of the decoding; every envelope it returns
    carries the received status unchanged and the success flag of the
    response, true exactly for a status in 200..299; and whether it
    throws does not depend on the status: against a server that answers
    alike with other statuses it throws in the same cases. *)
Theorem call_forwards_status (this : ProductsAPI.t Json) (op : Operation)
        (response : APIResponse Json) :
  ProductsAPI.request this (request_of Number_toString op) = Normal response ->
  ok_contract response ->
  sent (call Number_toString this op) = [request_of Number_toString op]
  /\ (forall d,
        Http.json response = Normal d ->
        exists env,
          outcome (call Number_toString this op) = Normal env
          /\ ProductsAPI.data env = d)
  /\ (forall env,
        outcome (call Number_toString this op) = Normal env ->
        ProductsAPI.status env = Http.status response
        /\ (ProductsAPI.ok env = true <->
            (200 <= Http.status response <= 299)%Z)
        /\ Http.json response = Normal (ProductsAPI.data env))
  /\ (forall this' e,
        alike_but_status (ProductsAPI.request this)
                         (ProductsAPI.request this') ->
        (outcome (call Number_toString this op) = Throw e <->
         outcome (call Number_toString this' op) = Throw e))
  /\ (forall e,
        Http.json response = Throw e ->
        outcome (call Number_toString this op) = Throw e).
Proof.
  intros Hresp Hok. split; [rewrite call_unfold; reflexivity|].
  split; [|split; [|split]].
  - intros d Hjson. rewrite call_unfold. unfold outcome. simpl.
    rewrite Hresp. simpl. unfold envelope. rewrite Hjson. simpl.
    eexists. split; reflexivity.
  - intros env Hout. rewrite call_unfold in Hout. unfold outcome in Hout.
    simpl in Hout. rewrite Hresp in Hout. simpl in Hout.
    unfold envelope in Hout.
    destruct (Http.json response) as [d|e]; simpl in Hout;
      [|discriminate].
    injection Hout as <-. simpl.
    split; [reflexivity|]. split; [|reflexivity].
    apply status_in_2xx. exact Hok.
  - intros this' e Halike. apply call_throws_alike. exact Halike.
  - intros e Hjson. rewrite call_unfold. unfold outcome. simpl.
    rewrite Hresp. simpl. unfold envelope. rewrite Hjson. reflexivity.
Qed.

(** A body that is not JSON makes the operation throw, whatever the
    status is; a transport failure is thrown as it is. *)
Lemma call_throws_on_undecodable (this : ProductsAPI.t Json)
      (op : Operation) (response : APIResponse Json) (e : exn) :
  ProductsAPI.request this (request_of Number_toString op) = Normal response ->
  Http.json response = Throw e ->
  outcome (call Number_toString this op) = Throw e.
Proof.
  intros Hresp Hjson. rewrite call_unfold. unfold outcome. simpl.
  rewrite Hresp. simpl. unfold envelope. rewrite Hjson. reflexivity.
Qed.

Lemma call_throws_on_transport_failure (this : ProductsAPI.t Json)
      (op : Operation) (e : exn) :
  ProductsAPI.request this (request_of Number_toString op) = Throw e ->
  outcome (call Number_toString this op) = Throw e.
Proof.
  intros Hresp. rewrite call_unfold. unfold outcome. simpl.
  rewrite Hresp. reflexivity.
Qed.

End ClientFacts.

(** The identifier 999999: the envelope carries 404 and a false flag. *)
Lemma call_forwards_status_witness :
  exists env,
    Http.outcome
      (Operations.call Fixtures.Number_toString
         {| ProductsAPI.request := Fixtures.notFoundServer |}
         (Operations.GetProductById 999999)) = Normal env
    /\ ProductsAPI.status env = 404%Z
    /\ ProductsAPI.ok env = false.
Proof.
  destruct (@call_forwards_status Fixtures.Json Fixtures.Number_toString
              {| ProductsAPI.request := Fixtures.notFoundServer |}
              (Operations.GetProductById 999999)
              Fixtures.notFound eq_refl eq_refl)
    as (_ & Hreturns & Henvelope & _).
  destruct (Hreturns _ eq_refl) as (env & Hout & _).
  destruct (Henvelope env Hout) as (Hstatus & Hok & _).
  exists env. split; [exact Hout|]. split; [exact Hstatus|].
  destruct (ProductsAPI.ok env); [|reflexivity].
  exfalso. assert (Hr : (200 <= 404 <= 299)%Z) by (apply Hok; reflexivity).
  lia.
Defined.

(** A gateway page in place of a JSON body: the exchange is completed,
    with the status 502 and the flag that goes with it, and
    [getProductById] throws instead of returning an envelope. *)
Lemma call_throws_on_gateway_page :
  Http.status Fixtures.badGateway = 502%Z
  /\ Http.ok_contract Fixtures.badGateway
  /\ Http.outcome
       (Operations.call Fixtures.Number_toString
          {| ProductsAPI.request := fun _ => Normal Fixtures.badGateway |}
          (Operations.GetProductById 1))
     = Throw (SyntaxError "Unexpected token < in JSON at position 0")
  /\ ~ (forall (this : ProductsAPI.t Fixtures.Json)
               (op : Operations.Operation)
               (response : Http.APIResponse Fixtures.Json),
          ProductsAPI.request this
            (Operations.request_of Fixtures.Number_toString op)
          = Normal response ->
          Http.ok_contract response ->
          exists env,
            Http.outcome (Operations.call Fixtures.Number_toString this op)
            = Normal env
            /\ ProductsAPI.status env = Http.status response).
Proof.
  split; [reflexivity|]. split; [reflexivity|]. split; [reflexivity|].
  intros Hall.
  destruct (Hall {| ProductsAPI.request :=
                      fun _ => Normal Fixtures.badGateway |}
                 (Operations.GetProductById 1) Fixtures.badGateway
                 eq_refl eq_refl) as (env & Hout & _).
  discriminate Hout.
Qed.

(* ------------------------------------------------------------------ *)
(** * [getProductsByCategory] *)

Lemma segments_not_nil (path : string) : Spec.segments path <> [].
Proof.
  destruct path as [|c rest]; simpl; [discriminate|].
  destruct (Ascii.eqb c "/"); [discriminate|].
  destruct (Spec.segments rest); discriminate.
Qed.

Lemma length_segments (path : string) :
  List.length (Spec.segments path) = S (Spec.count_slash path).
Proof.
  induction path as [|c rest IH]; simpl; [reflexivity|].
  destruct (Ascii.eqb c "/"); simpl.
  - rewrite IH. reflexivity.
  - destruct (Spec.segments rest) as [|seg more] eqn:E.
    + exfalso. exact (segments_not_nil rest E).
    + simpl in *. exact IH.
Qed.

Lemma segments_category_path (s : string) :
  Spec.segments ("/products/category/" ++ s)
  = EmptyString :: "products" :: "category" :: Spec.segments s.
Proof. reflexivity. Qed.

Section CategoryFacts.

Import Http Operations.

Variable Json : Type.

Lemma sent_getProductsByCategory (this : ProductsAPI.t Json)
      (category : CategoryArg) :
  sent (ProductsAPI.getProductsByCategory this category)
  = [{| method := GET;
        target := "/products/category/"
                  ++ template_string
                       match category with
                       | CategoryString s => Some s
                       | CategoryObject c => slug c
                       end;
        params := []; body := None |}].
Proof.
  unfold ProductsAPI.getProductsByCategory, get.
  rewrite send_then_envelope. reflexivity.
Qed.

(** C9: for a string argument the first revision of
    [getProductsByCategory] sends one GET whose path is
    [/products/category/] followed by the string itself, character for
    character; the path therefore has one more segment for every ['/'] in
    the string. *)
Theorem getProductsByCategory_string_verbatim (this : ProductsAPI.t Json)
        (s : string) :
  sent (ProductsAPI.getProductsByCategory this (CategoryString s))
  = [{| method := GET; target := "/products/category/" ++ s;
        params := []; body := None |}]
  /\ Spec.segments ("/products/category/" ++ s)
     = EmptyString :: "products" :: "category" :: Spec.segments s
  /\ List.length (Spec.segments ("/products/category/" ++ s))
     = (4 + Spec.count_slash s)%nat.
Proof.
  split; [apply sent_getProductsByCategory|].
  split; [apply segments_category_path|].
  rewrite segments_category_path. simpl. rewrite length_segments.
  reflexivity.
Qed.

(** The first revision resolves a string to itself and a record to its
    slug: for every argument whose canonical identifier is a present
    slug or the string, the path ends with the canonical identifier. *)
Lemma getProductsByCategory_resolves_slug (this : ProductsAPI.t Json)
      (category : CategoryArg) (identifier : string) :
  Spec.canonicalIdentifier category = Some identifier ->
  match category with
  | CategoryString _ => True
  | CategoryObject c => truthy (slug c) = true
  end ->
  sent (ProductsAPI.getProductsByCategory this category)
  = [{| method := GET; target := "/products/category/" ++ identifier;
        params := []; body := None |}].
Proof.
  intros Hcanon Hslug. rewrite sent_getProductsByCategory.
  destruct category as [s|c]; simpl in *.
  - injection Hcanon as ->. reflexivity.
  - rewrite Hslug in Hcanon. rewrite Hcanon. reflexivity.
Qed.

Lemma sent_getProductsByCategory_baseURL (this : ProductsAPI_baseURL.t Json)
      (category : CategoryArg) :
  sent (ProductsAPI_baseURL.getProductsByCategory this category)
  = [{| method := GET;
        target := ProductsAPI_baseURL.baseURL this ++ "/products/category/"
                  ++ match category with
                     | CategoryString s => s
                     | CategoryObject _ => "[object Object]"
                     end;
        params := []; body := None |}].
Proof.
  unfold ProductsAPI_baseURL.getProductsByCategory, get, send, Http.bind,
    await, sent.
  destruct (ProductsAPI_baseURL.request this _) as [response|e];
    reflexivity.
Qed.

(** C3 (the code departs from it): the canonical identifier of the
    record [smartphones] is its slug, and the revision with a base URL
    requests [.../products/category/[object Object]] for it, as for every
    record; the canonical identifier of a record with a name and no slug
    is the name, and the other revision requests
    [/products/category/undefined] for it. *)
Theorem getProductsByCategory_misses_canonical
        (request : APIRequestContext Json) :
  Spec.canonicalIdentifier (CategoryObject Fixtures.smartphones)
  = Some "smartphones"
  /\ sent (ProductsAPI_baseURL.getProductsByCategory
             (ProductsAPI_baseURL.new request None)
             (CategoryObject Fixtures.smartphones))
     = [{| method := GET;
           target := "https://dummyjson.com/products/category/[object Object]";
           params := []; body := None |}]
  /\ Spec.canonicalIdentifier (CategoryObject Fixtures.nameOnly)
     = Some "Smartphones"
  /\ sent (ProductsAPI.getProductsByCategory
             {| ProductsAPI.request := request |}
             (CategoryObject Fixtures.nameOnly))
     = [{| method := GET; target := "/products/category/undefined";
           params := []; body := None |}].
Proof.
  split; [reflexivity|]. split; [apply sent_getProductsByCategory_baseURL|].
  split; [reflexivity|]. apply sent_getProductsByCategory.
Qed.

(** With a string the revision with a base URL appends it unchanged as
    well. *)
Lemma getProductsByCategory_baseURL_string (this : ProductsAPI_baseURL.t Json)
      (s : string) :
  sent (ProductsAPI_baseURL.getProductsByCategory this (CategoryString s))
  = [{| method := GET;
        target := ProductsAPI_baseURL.baseURL this
                  ++ "/products/category/" ++ s;
        params := []; body := None |}].
Proof. apply sent_getProductsByCategory_baseURL. Qed.

(** A record whose slug is the empty string: the tests fall back to the
    name, the client requests the bare category path. *)
Lemma getProductsByCategory_empty_slug (request : APIRequestContext Json) :
  Spec.canonicalIdentifier (CategoryObject Fixtures.emptySlug)
  = Some "Smartphones"
  /\ sent (ProductsAPI.getProductsByCategory
             {| ProductsAPI.request := request |}
             (CategoryObject Fixtures.emptySlug))
     = [{| method := GET; target := "/products/category/";
           params := []; body := None |}].
Proof.
  split; [reflexivity | apply sent_getProductsByCategory].
Qed.

End CategoryFacts.

(** A category string with a ['/'] in it addresses a path of five
    segments, the last of which is not part of the category. *)
Lemma getProductsByCategory_slash_example :
  Http.sent (ProductsAPI.getProductsByCategory
               {| ProductsAPI.request := Fixtures.notFoundServer |}
               (CategoryString "smartphones/1"))
  = [{| Http.method := Http.GET;
        Http.target := "/products/category/smartphones/1";
        Http.params := []; Http.body := None |}]
  /\ Spec.segments "/products/category/smartphones/1"
     = [EmptyString; "products"; "category"; "smartphones"; "1"].
Proof. split; reflexivity. Qed.

(* ------------------------------------------------------------------ *)
(** * [validateResponseSchema] *)

Lemma append_nil_r (s : string) : s ++ EmptyString = s.
Proof.
  induction s as [|x s IHs]; simpl; [reflexivity | now rewrite IHs].
Qed.

Lemma includes_unfold (hay needle : string) :
  includes hay needle
  = (String.prefix needle hay
     || match hay with
        | EmptyString => false
        | String _ r => includes r needle
        end).
Proof. destruct hay; reflexivity. Qed.

Lemma prefix_spec (a b : string) :
  String.prefix a b = true <-> exists c, b = a ++ c.
Proof.
  revert b. induction a as [|x a IH]; intros b.
  - split; [intros _; exists b; reflexivity|].
    intros _. destruct b; reflexivity.
  - destruct b as [|y b]; simpl.
    + split; [discriminate | intros [c Hc]; discriminate].
    + destruct (ascii_dec x y) as [->|Hne].
      * rewrite IH. split; intros [c Hc]; exists c.
        -- now rewrite Hc.
        -- now injection Hc.
      * split; [discriminate|]. intros [c Hc].
        injection Hc as Hxy _. congruence.
Qed.

(** [hay.includes(needle)] holds exactly when the needle occurs in the
    hay. *)
Lemma includes_spec (hay needle : string) :
  includes hay needle = true <->
  exists before after, hay = before ++ needle ++ after.
Proof.
  induction hay as [|c r IH]; rewrite includes_unfold, orb_true_iff.
  - split.
    + intros [Hp|Hf]; [|discriminate].
      apply prefix_spec in Hp. destruct Hp as [after Hp].
      exists EmptyString, after. exact Hp.
    + intros (before & after & Heq). left. apply prefix_spec.
      destruct before as [|x before]; [|discriminate].
      exists after. exact Heq.
  - rewrite IH. split.
    + intros [Hp|(before & after & Heq)].
      * apply prefix_spec in Hp. destruct Hp as [after Hp].
        exists EmptyString, after. exact Hp.
      * exists (String c before), after. simpl. now rewrite Heq.
    + intros (before & after & Heq).
      destruct before as [|x before].
      * left. apply prefix_spec. exists after. exact Heq.
      * right. exists before, after. simpl in Heq. now injection Heq.
Qed.

Lemma includes_append (a b c : string) : includes (a ++ b ++ c) b = true.
Proof. apply includes_spec. exists a, c. reflexivity. Qed.

Lemma includes_suffix (a b : string) : includes (a ++ b) b = true.
Proof.
  apply includes_spec. exists a, EmptyString.
  now rewrite append_nil_r.
Qed.

Lemma append_assoc (a b c : string) : (a ++ b) ++ c = a ++ b ++ c.
Proof.
  induction a as [|x a IH]; simpl; [reflexivity | now rewrite IH].
Qed.

Lemma includes_within (a b x c d : string) :
  includes (a ++ (b ++ x ++ c) ++ d) x = true.
Proof.
  assert (E : a ++ (b ++ x ++ c) ++ d = (a ++ b) ++ x ++ (c ++ d))
    by (rewrite !append_assoc; reflexivity).
  rewrite E. apply includes_append.
Qed.

Lemma join_In (sep x : string) (xs : list string) :
  In x xs -> exists before after, join sep xs = before ++ x ++ after.
Proof.
  induction xs as [|y r IH]; intros Hin; [contradiction|].
  destruct Hin as [->|Hin].
  - exists EmptyString. destruct r as [|z r'].
    + exists EmptyString. simpl. now rewrite append_nil_r.
    + exists (sep ++ join sep (z :: r')). reflexivity.
  - destruct (IH Hin) as (before & after & Heq).
    destruct r as [|z r']; [contradiction|].
    exists (y ++ sep ++ before), after.
    change (join sep (y :: z :: r')) with (y ++ sep ++ join sep (z :: r')).
    rewrite Heq, !append_assoc. reflexivity.
Qed.

Section ValidatorFacts.

Import SchemaValidator.

Variables Body Schema Ajv : Type.
Variable compile : Ajv -> Schema -> completion (ValidateFunction Body) * Ajv.
Variable JSON_stringify : Body -> nat -> string.

Local Abbreviation validateResponseSchema :=
  (SchemaValidator.validateResponseSchema compile JSON_stringify).
Local Abbreviation failureMessage :=
  (SchemaValidator.failureMessage JSON_stringify).

(** The outcome of a call is what the compiled validator gives on the
    body; the state of the instance enters through [compile] alone. *)
Lemma validateResponseSchema_outcome (ajv : Ajv) (response : Body)
      (schema : Schema) :
  fst (validateResponseSchema ajv response schema)
  = (validate <- fst (compile ajv schema) ;;
     match negb (fst (validate response)), snd (validate response) with
     | true, Some errs => Throw (Error (failureMessage errs response))
     | _, _ => Normal (fst (validate response))
     end).
Proof.
  unfold SchemaValidator.validateResponseSchema.
  destruct (compile ajv schema) as [[validate|e] ajv']; simpl;
    [|reflexivity].
  destruct (validate response) as [isValid errors]. reflexivity.
Qed.

(** Every reported error has its line in the message, and the message
    ends with the dump of the body. *)
Lemma failureMessage_aggregates (errors : list ErrorObject)
      (response : Body) :
  (forall error, In error errors ->
     includes (failureMessage errors response) (errorLine error) = true)
  /\ includes (failureMessage errors response) (JSON_stringify response 2)
     = true.
Proof.
  unfold SchemaValidator.failureMessage. split.
  - intros error Hin.
    destruct (@join_In LF (errorLine error) (map errorLine errors))
      as (before & after & Heq).
    { apply in_map. exact Hin. }
    cbv zeta. rewrite Heq.
    rewrite <- (append_assoc "Schema validation failed:" LF).
    apply includes_within.
  - cbv zeta. rewrite <- !append_assoc. apply includes_suffix.
Qed.

(** The line of a reported violation: the instance path, or [root] for
    the empty path, and the message. *)
Lemma errorLine_shape (error : ErrorObject) :
  errorLine error
  = "Path: "
    ++ (if String.eqb (instancePath error) EmptyString
        then "root" else instancePath error)
    ++ " - "
    ++ match message error with
       | Some text => text
       | None => "undefined"
       end.
Proof.
  unfold errorLine, template_string.
  destruct (instancePath error) as [|c path]; reflexivity.
Qed.

(** C7 (as amended): for every body and schema, given that Ajv sets
    [validate.errors] when a validator answers [false],
    [validateResponseSchema] never returns [false]; when compiling the
    schema throws, the call throws that error, whatever the body; when the
    schema compiles, the call returns [true] on a conforming body, and on
    any other body it throws one error whose message is the heading, then
    one line [Path: <instance path, or root> - <message>] for every
    reported violation, in order, then the indented dump of the body. *)
Theorem validateResponseSchema_true_or_throws (ajv : Ajv)
        (response : Body) (schema : Schema) :
  (forall validate,
     fst (compile ajv schema) = Normal validate ->
     reports_errors validate response) ->
  let line := fun error : ErrorObject =>
    "Path: "
    ++ (if String.eqb (instancePath error) EmptyString
        then "root" else instancePath error)
    ++ " - "
    ++ match message error with
       | Some text => text
       | None => "undefined"
       end in
  fst (validateResponseSchema ajv response schema) <> Normal false
  /\ (forall e,
        fst (compile ajv schema) = Throw e ->
        fst (validateResponseSchema ajv response schema) = Throw e)
  /\ forall validate,
       fst (compile ajv schema) = Normal validate ->
       (conforms validate response ->
        fst (validateResponseSchema ajv response schema) = Normal true)
       /\ (~ conforms validate response ->
           exists errors text,
             snd (validate response) = Some errors
             /\ fst (validateResponseSchema ajv response schema)
                = Throw (Error text)
             /\ text
                = "Schema validation failed:" ++ LF
                  ++ join LF (map line errors) ++ LF ++ LF
                  ++ "Actual Response:" ++ LF ++ JSON_stringify response 2
             /\ (forall error, In error errors ->
                   includes text (line error) = true)
             /\ includes text (JSON_stringify response 2) = true).
Proof.
  intros Hreports line. rewrite validateResponseSchema_outcome.
  destruct (fst (compile ajv schema)) as [validate|e] eqn:Hcompile; simpl.
  2:{ split; [discriminate|]. split; [intros e' He'; injection He' as <-; reflexivity|].
      intros validate Hv. discriminate. }
  specialize (Hreports validate eq_refl).
  unfold conforms, reports_errors in *. split; [|split].
  - destruct (validate response) as [[|] [errs|]]; simpl in *;
      try discriminate.
    exfalso. apply Hreports; reflexivity.
  - intros e He. discriminate.
  - intros validate' Hv'. injection Hv' as <-.
    destruct (validate response) as [isValid errors]. simpl in *.
    destruct isValid; simpl.
    + split; [reflexivity|]. intros Hn. exfalso. apply Hn. reflexivity.
    + destruct errors as [errs|];
        [|exfalso; apply Hreports; reflexivity].
      split; [discriminate|]. intros _.
      assert (Hlines : map errorLine errs = map line errs).
      { apply map_ext. intros error. apply errorLine_shape. }
      assert (Htext : failureMessage errs response
                      = "Schema validation failed:" ++ LF
                        ++ join LF (map line errs) ++ LF ++ LF
                        ++ "Actual Response:" ++ LF
                        ++ JSON_stringify response 2).
      { unfold SchemaValidator.failureMessage. cbv zeta.
        rewrite Hlines. reflexivity. }
      exists errs, (failureMessage errs response).
      split; [reflexivity|]. split; [reflexivity|].
      split; [exact Htext|].
      destruct (failureMessage_aggregates errs response) as [Hall Hdump].
      split; [|exact Hdump].
      intros error Hin.
      replace (line error) with (errorLine error)
        by apply errorLine_shape.
      apply Hall. exact Hin.
Qed.

(** A schema that Ajv rejects makes the call throw what [compile]
    throws. *)
Lemma validateResponseSchema_compile_error (ajv ajv' : Ajv)
      (response : Body) (schema : Schema) (e : exn) :
  compile ajv schema = (Throw e, ajv') ->
  fst (validateResponseSchema ajv response schema) = Throw e.
Proof.
  intros Hcompile. unfold SchemaValidator.validateResponseSchema.
  rewrite Hcompile. reflexivity.
Qed.

Lemma validateResponseSchema_state (ajv : Ajv) (response : Body)
      (schema : Schema) :
  snd (validateResponseSchema ajv response schema)
  = snd (compile ajv schema).
Proof.
  unfold SchemaValidator.validateResponseSchema.
  destruct (compile ajv schema). reflexivity.
Qed.

End ValidatorFacts.

(* ------------------------------------------------------------------ *)
(** * The calls on the shared Ajv instance *)

Section AjvModelFacts.

Import SchemaValidator AjvModel.

(** The instance never drops nor replaces a compiled validator. *)
Lemma compile_keeps (ajv : Ajv) (schema : Schema) (object : nat)
      (validate : ValidateFunction Body) :
  lookup (cache ajv) object = Some (Some validate) ->
  lookup (cache (snd (compile ajv schema))) object = Some (Some validate).
Proof.
  intros Hcached. unfold compile.
  destruct (lookup (cache ajv) (reference schema)) as [[cached|]|] eqn:Hl.
  - exact Hcached.
  - simpl. destruct (Nat.eqb (reference schema) object) eqn:Heq;
      [|exact Hcached].
    apply Nat.eqb_eq in Heq. subst object. congruence.
  - assert (Hne : Nat.eqb (reference schema) object = false).
    { destruct (Nat.eqb (reference schema) object) eqn:Heq;
        [|reflexivity].
      apply Nat.eqb_eq in Heq. subst object. congruence. }
    unfold validateSchema_then_compile, compileSchemaEnv.
    destruct (schema_id schema) as [key|];
      [destruct (existsb (String.eqb key) (refs ajv))|];
      try destruct (has_duplicates (required schema));
      simpl; rewrite ?Hne; exact Hcached.
Qed.

(** A schema object that compiles is in the cache with its validator. *)
Lemma compile_compiled (ajv : Ajv) (schema : Schema)
      (validate : ValidateFunction Body) :
  fst (compile ajv schema) = Normal validate ->
  lookup (cache (snd (compile ajv schema))) (reference schema)
  = Some (Some validate).
Proof.
  unfold compile.
  destruct (lookup (cache ajv) (reference schema)) as [[cached|]|] eqn:Hl.
  - simpl. intros H. injection H as <-. exact Hl.
  - simpl. intros H. injection H as <-. rewrite Nat.eqb_refl. reflexivity.
  - unfold validateSchema_then_compile, compileSchemaEnv.
    destruct (schema_id schema) as [key|];
      [destruct (existsb (String.eqb key) (refs ajv))|];
      try destruct (has_duplicates (required schema));
      simpl; intros H; try discriminate;
      injection H as <-; rewrite Nat.eqb_refl; reflexivity.
Qed.

(** A cached validator is what [compile] gives. *)
Lemma compile_cached (ajv : Ajv) (schema : Schema)
      (validate : ValidateFunction Body) :
  lookup (cache ajv) (reference schema) = Some (Some validate) ->
  fst (compile ajv schema) = Normal validate.
Proof. intros Hcached. unfold compile. rewrite Hcached. reflexivity. Qed.

Lemma after_keeps (calls : list (Body * Schema)) (ajv : Ajv) (object : nat)
      (validate : ValidateFunction Body) :
  lookup (cache ajv) object = Some (Some validate) ->
  lookup (cache (after calls ajv)) object = Some (Some validate).
Proof.
  revert ajv. induction calls as [|[response schema] rest IH];
    intros ajv Hcached; simpl; [exact Hcached|].
  apply IH. unfold AjvModel.validateResponseSchema.
  rewrite validateResponseSchema_state. apply compile_keeps. exact Hcached.
Qed.

Lemma build_reports_errors (schema : Schema) (response : Body) :
  reports_errors (build schema) response.
Proof.
  unfold reports_errors, build.
  destruct (missing response (required schema)); simpl; intros H;
    discriminate.
Qed.

(** C10 (as amended): on the shared instance, once a call with a schema
    object has got past [ajv.compile], every later call with that same
    schema object and an equal body, whatever calls were made in between,
    has the outcome of the first: both return [true], or both throw the
    error with the same message. *)
Theorem validateResponseSchema_repeatable (ajv : Ajv)
        (between : list (Body * Schema)) (response : Body)
        (schema : Schema) (validate : ValidateFunction Body) :
  fst (compile ajv schema) = Normal validate ->
  fst (AjvModel.validateResponseSchema
         (after between
            (snd (AjvModel.validateResponseSchema ajv response schema)))
         response schema)
  = fst (AjvModel.validateResponseSchema ajv response schema).
Proof.
  intros Hcompile. unfold AjvModel.validateResponseSchema.
  rewrite !validateResponseSchema_outcome.
  rewrite validateResponseSchema_state.
  rewrite (@compile_cached _ _ validate), Hcompile; [reflexivity|].
  apply after_keeps. apply compile_compiled. exact Hcompile.
Qed.

End AjvModelFacts.

(** A body without the required title: the call throws; with the title
    it returns [true]. *)
Lemma validateResponseSchema_true_or_throws_witness :
  fst (AjvModel.validateResponseSchema
         AjvModel.new Fixtures.untitledBody Fixtures.productSchema)
  <> Normal false
  /\ fst (AjvModel.validateResponseSchema
            AjvModel.new Fixtures.productBody Fixtures.productSchema)
     = Normal true.
Proof.
  split.
  - apply (@validateResponseSchema_true_or_throws
             AjvModel.Body AjvModel.Schema AjvModel.Ajv
             AjvModel.compile AjvModel.JSON_stringify
             AjvModel.new Fixtures.untitledBody Fixtures.productSchema).
    intros validate Hcompile. injection Hcompile as <-.
    unfold SchemaValidator.reports_errors. simpl. intros _. discriminate.
  - refine (proj1 (proj2 (proj2
      (@validateResponseSchema_true_or_throws
         AjvModel.Body AjvModel.Schema AjvModel.Ajv
         AjvModel.compile AjvModel.JSON_stringify
         AjvModel.new Fixtures.productBody Fixtures.productSchema _))
      _ eq_refl) eq_refl).
    intros validate Hcompile. injection Hcompile as <-.
    unfold SchemaValidator.reports_errors. simpl. discriminate.
Defined.

(** The schema document decoded a second time: the body has every
    required property, and the call throws, because the instance knows
    the [$id] from the first object. *)
Lemma validateResponseSchema_throws_on_conforming :
  SchemaValidator.conforms (AjvModel.build Fixtures.productSchemaAgain)
                           Fixtures.productBody
  /\ fst (AjvModel.validateResponseSchema
            (AjvModel.after
               [(Fixtures.productBody, Fixtures.productSchema)]
               AjvModel.new)
            Fixtures.productBody Fixtures.productSchemaAgain)
     = Throw (Error ("schema with key or id "
                     ++ AjvModel.quote "https://dummyjson.com/schemas/product"
                     ++ " already exists"))
  /\ ~ (forall ajv response schema,
          SchemaValidator.conforms (AjvModel.build schema) response ->
          fst (AjvModel.validateResponseSchema ajv response schema)
          = Normal true).
Proof.
  split; [reflexivity|]. split; [reflexivity|].
  intros Hall.
  specialize (Hall (AjvModel.after
                      [(Fixtures.productBody, Fixtures.productSchema)]
                      AjvModel.new)
                   Fixtures.productBody Fixtures.productSchemaAgain
                   eq_refl).
  discriminate Hall.
Qed.

(** Two calls with equal bodies and schemas of equal content, the second
    schema another object than the first: the first call returns [true],
    the second throws. *)
Lemma validateResponseSchema_equal_schemas_differ :
  AjvModel.same_content Fixtures.productSchema Fixtures.productSchemaAgain
  /\ fst (AjvModel.validateResponseSchema
            AjvModel.new Fixtures.productBody Fixtures.productSchema)
     = Normal true
  /\ fst (AjvModel.validateResponseSchema
            (snd (AjvModel.validateResponseSchema
                    AjvModel.new Fixtures.productBody
                    Fixtures.productSchema))
            Fixtures.productBody Fixtures.productSchemaAgain)
     = Throw (Error ("schema with key or id "
                     ++ AjvModel.quote "https://dummyjson.com/schemas/product"
                     ++ " already exists")).
Proof.
  split; [split; reflexivity|]. split; reflexivity.
Qed.

(** The same schema object and the same body again, after a call with
    another body. *)
Lemma validateResponseSchema_repeatable_witness :
  fst (AjvModel.validateResponseSchema
         (AjvModel.after
            [(Fixtures.productBody, Fixtures.productSchema)]
            (snd (AjvModel.validateResponseSchema
                    AjvModel.new Fixtures.untitledBody
                    Fixtures.productSchema)))
         Fixtures.untitledBody Fixtures.productSchema)
  = fst (AjvModel.validateResponseSchema
           AjvModel.new Fixtures.untitledBody Fixtures.productSchema).
Proof.
  apply (@validateResponseSchema_repeatable
           AjvModel.new
           [(Fixtures.productBody, Fixtures.productSchema)]
           Fixtures.untitledBody Fixtures.productSchema
           (AjvModel.build Fixtures.productSchema)).
  reflexivity.
Defined.

(* ------------------------------------------------------------------ *)
(** * More about the assertion helpers *)

(** X1: [assertProductsInCategory] passes exactly when every product of
    the list carries the given category, letter for letter; on the empty
    list it passes for every category. *)
Theorem assertProductsInCategory_passes (products : list Product)
        (category' : string) :
  passes (assertProductsInCategory products category') <->
  forall product, In product products -> category product = category'.
Proof.
  unfold assertProductsInCategory.
  rewrite forEach_passes, Forall_forall.
  split; intros H product Hin.
  - apply passes_toBe_string. apply H. exact Hin.
  - apply passes_toBe_string. apply H. exact Hin.
Qed.

(** X2: a non-empty list passes [assertProductsInCategory] for one
    category at most: passing for two names makes them the same name. *)
Theorem assertProductsInCategory_one_category (products : list Product)
        (category1 category2 : string) :
  products <> [] ->
  passes (assertProductsInCategory products category1) ->
  passes (assertProductsInCategory products category2) ->
  category1 = category2.
Proof.
  intros Hne H1 H2. destruct products as [|product rest]; [contradiction|].
  unfold assertProductsInCategory in *.
  rewrite forEach_passes in H1, H2.
  inversion H1 as [|? ? Hp1 _]. inversion H2 as [|? ? Hp2 _].
  apply passes_toBe_string in Hp1. apply passes_toBe_string in Hp2.
  congruence.
Qed.

Lemma assertProductsInCategory_one_category_witness :
  passes (assertProductsInCategory [Fixtures.iPhone9] "smartphones")
  /\ ~ passes (assertProductsInCategory [Fixtures.iPhone9] "SMARTPHONES").
Proof.
  split; [reflexivity|]. intros Hupper.
  assert (Hsame : "smartphones" = "SMARTPHONES").
  { apply (@assertProductsInCategory_one_category
             [Fixtures.iPhone9] "smartphones" "SMARTPHONES").
    - discriminate.
    - reflexivity.
    - exact Hupper. }
  discriminate.
Defined.

Lemma passes_assertValidProductsResponse (response : ProductsResponse) :
  passes (assertValidProductsResponse response) <->
    0 < total response
    /\ 0 <= skip response
    /\ 0 < limit response
    /\ Array_length (products response) <= limit response.
Proof.
  unfold assertValidProductsResponse. matchers.
  simpl (truthy _). unfold Array_isArray. tauto.
Qed.

(** X3: on a listing that [assertValidProductsResponse] accepts,
    [assertPagination] passes exactly when the echoed skip is the expected
    one in the sense of [Object.is] and the echoed limit equals the
    expected one: its own length check cannot fail any more, the sign of
    zero matters for the skip alone, and the expected values it passes for
    are a non-negative skip and a positive limit. *)
Theorem assertPagination_after_valid (response : ProductsResponse)
        (expectedSkip expectedLimit : number) :
  passes (assertValidProductsResponse response) ->
  (passes (assertPagination response expectedSkip expectedLimit) <->
   SameValue (skip response) expectedSkip
   /\ limit response == expectedLimit)
  /\ (passes (assertPagination response expectedSkip expectedLimit) ->
      0 <= expectedSkip /\ 0 < expectedLimit).
Proof.
  intros Hvalid. apply passes_assertValidProductsResponse in Hvalid.
  destruct Hvalid as (_ & Hskip & Hlimit & Hlen).
  rewrite passes_assertPagination.
  assert (Hpos : forall l : number,
            limit response == l -> SameValue (limit response) l).
  { intros l Hl. apply SameValue_nonzero; [|exact Hl].
    intros Hz. rewrite Hl, Hz in Hlimit.
    exact (Qlt_irrefl 0 Hlimit). }
  split.
  - split.
    + intros (Hs & (Hl & _) & _). split; assumption.
    + intros (Hs & Hl). split; [exact Hs|]. split; [apply Hpos, Hl|].
      rewrite <- Hl. exact Hlen.
  - intros ((Hs & _) & (Hl & _) & _). split.
    + rewrite <- Hs. exact Hskip.
    + rewrite <- Hl. exact Hlimit.
Qed.

Lemma assertPagination_after_valid_witness :
  passes (assertPagination Fixtures.firstPage 0 10).
Proof.
  apply (proj1 (@assertPagination_after_valid Fixtures.firstPage 0 10
                  eq_refl)).
  split; [split|]; reflexivity.
Defined.

(** X4: the test of a custom page size runs both helpers and then checks
    the length once more; the three together pass exactly when the
    listing is valid, echoes the skip as [+0] and echoes the requested
    limit. *)
Theorem customPaginationChecks_passes (data : ProductsResponse)
        (limit' : number) :
  passes (Tests.customPaginationChecks data limit') <->
  passes (assertValidProductsResponse data)
  /\ (skip data == 0 /\ is_negative_zero (skip data) = false)
  /\ limit data == limit'.
Proof.
  unfold Tests.customPaginationChecks.
  rewrite !passes_seq, passes_assertPagination.
  unfold toBeLessThanOrEqual, expect. rewrite passes_check, Qle_bool_iff.
  rewrite passes_assertValidProductsResponse.
  unfold SameValue at 1. cbn [value is_negative_zero].
  split.
  - intros (Hv & (Hs & (Hl & _) & _) & _). tauto.
  - intros ((Ht & Hs0 & Hl0 & Hlen) & Hs & Hl).
    assert (Hlen' : Array_length (products data) <= limit')
      by (rewrite <- Hl; exact Hlen).
    assert (Hsame : SameValue (limit data) limit').
    { apply SameValue_nonzero; [|exact Hl].
      intros Hz. rewrite Hl, Hz in Hl0. exact (Qlt_irrefl 0 Hl0). }
    tauto.
Qed.

Lemma includes_empty (s : string) : includes s EmptyString = true.
Proof. apply includes_spec. exists EmptyString, s. reflexivity. Qed.

Lemma includes_trans (hay middle needle : string) :
  includes hay middle = true -> includes middle needle = true ->
  includes hay needle = true.
Proof.
  rewrite !includes_spec.
  intros (b1 & a1 & ->) (b2 & a2 & ->).
  exists (b1 ++ b2), (a2 ++ a1). rewrite !append_assoc. reflexivity.
Qed.

Lemma toLowerCase_append (a b : string) :
  toLowerCase (a ++ b) = toLowerCase a ++ toLowerCase b.
Proof.
  induction a as [|c a IH]; simpl; [reflexivity | now rewrite IH].
Qed.

(** What the loop body of [assertProductsMatchSearch] does to one
    product. *)
Lemma search_body_passes (searchTerm : string) (product : Product) :
  passes (brandLower <- call_toLowerCase (brand product) ;;
          toBeTruthy
            (expect
               (includes (toLowerCase (title product))
                         (toLowerCase searchTerm)
                || includes (toLowerCase (description product))
                            (toLowerCase searchTerm)
                || includes brandLower (toLowerCase searchTerm)))) <->
  exists b, brand product = Some b
            /\ Spec.matchesSearch searchTerm product = true.
Proof.
  unfold Spec.matchesSearch.
  destruct (brand product) as [b|]; simpl.
  - unfold toBeTruthy, expect. rewrite passes_check. simpl truthy. split.
    + intros H. exists b. split; [reflexivity | exact H].
    + intros (b' & _ & H). exact H.
  - split; [discriminate|]. intros (b' & Hb & _). discriminate.
Qed.

Lemma passes_assertProductsMatchSearch (products : list Product)
      (searchTerm : string) :
  passes (assertProductsMatchSearch products searchTerm) <->
  forall product, In product products ->
    exists b, brand product = Some b
              /\ Spec.matchesSearch searchTerm product = true.
Proof.
  unfold assertProductsMatchSearch.
  rewrite forEach_passes, Forall_forall.
  split; intros H product Hin; apply search_body_passes, H, Hin.
Qed.

(** X5: with the empty search term [assertProductsMatchSearch] passes
    exactly when every product carries a brand: every title contains the
    empty term, so nothing but the unguarded brand access can fail. *)
Theorem assertProductsMatchSearch_empty_term (products : list Product) :
  passes (assertProductsMatchSearch products EmptyString) <->
  forall product, In product products -> brand product <> None.
Proof.
  rewrite passes_assertProductsMatchSearch.
  split; intros H product Hin.
  - destruct (H product Hin) as (b & Hb & _). congruence.
  - destruct (brand product) as [b|] eqn:Hb;
      [|exfalso; exact (H product Hin Hb)].
    exists b. split; [reflexivity|].
    unfold Spec.matchesSearch. simpl toLowerCase.
    rewrite includes_empty. reflexivity.
Qed.

(** X6: with a search term and products whose texts are in the ASCII
    range, a list that passes [assertProductsMatchSearch] for the term
    passes it for every part of the term. *)
Theorem assertProductsMatchSearch_part (products : list Product)
        (before part after : string) :
  ascii_only (before ++ part ++ after) = true ->
  forallb Spec.ascii_texts products = true ->
  passes (assertProductsMatchSearch products (before ++ part ++ after)) ->
  passes (assertProductsMatchSearch products part).
Proof.
  intros _ _. rewrite !passes_assertProductsMatchSearch.
  intros H product Hin. destruct (H product Hin) as (b & Hb & Hm).
  exists b. split; [exact Hb|].
  unfold Spec.matchesSearch in *. rewrite Hb in *.
  assert (Hpart : includes (toLowerCase (before ++ part ++ after))
                           (toLowerCase part) = true).
  { rewrite !toLowerCase_append. apply includes_append. }
  rewrite !orb_true_iff in *.
  destruct Hm as [[Ht|Hd]|Hbr].
  - left. left. exact (includes_trans _ _ _ Ht Hpart).
  - left. right. exact (includes_trans _ _ _ Hd Hpart).
  - right. exact (includes_trans _ _ _ Hbr Hpart).
Qed.

Lemma assertProductsMatchSearch_part_witness :
  passes (assertProductsMatchSearch [Fixtures.iPhone9] "Phone").
Proof.
  apply (@assertProductsMatchSearch_part [Fixtures.iPhone9] "i" "Phone" " 9"
           eq_refl eq_refl).
  reflexivity.
Defined.

Lemma passes_assertProductsMatch (actual : Product)
      (expected : Partial.Product) :
  passes (assertProductsMatch actual expected) <->
     Spec.demands eq (Partial.title expected) (title actual)
     /\ Spec.demands same_number (Partial.price expected) (price actual)
     /\ Spec.demands eq (Partial.description expected) (description actual)
     /\ Spec.demands same_number (Partial.rating expected) (rating actual)
     /\ Spec.demands same_number (Partial.stock expected) (stock actual)
     /\ Spec.demands (fun a v => a = Some v)
                     (Partial.brand expected) (brand actual)
     /\ Spec.demands eq (Partial.category expected) (category actual).
Proof.
  unfold assertProductsMatch. rewrite !passes_seq.
  rewrite !demands_string, !demands_number, demands_optional.
  tauto.
Qed.

(** X7: every product matches the partial made of its own properties:
    [assertProductsMatch product { ...product }] passes. *)
Theorem assertProductsMatch_spread (product : Product) :
  passes (assertProductsMatch product (spread product)).
Proof.
  apply passes_assertProductsMatch. unfold spread, Spec.demands. simpl.
  repeat split; try (intros _; reflexivity).
  destruct (brand product) as [b|]; [intros _; reflexivity | exact I].
Qed.

Lemma demands_below {A B} `{Value A} (same : B -> A -> Prop)
      (weaker expected : option A) (actual : B) :
  weaker = None \/ weaker = expected ->
  Spec.demands same expected actual -> Spec.demands same weaker actual.
Proof.
  intros [->| ->] Hd; [exact I | exact Hd].
Qed.

(** X8: leaving compared properties out of the expected partial never
    turns a pass of [assertProductsMatch] into a failure. *)
Theorem assertProductsMatch_below (actual : Product)
        (weaker expected : Partial.Product) :
  Partial.below weaker expected ->
  passes (assertProductsMatch actual expected) ->
  passes (assertProductsMatch actual weaker).
Proof.
  intros (Ht & Hp & Hd & Hr & Hs & Hb & Hc).
  rewrite !passes_assertProductsMatch.
  intros (Dt & Dp & Dd & Dr & Ds & Db & Dc).
  repeat split; eapply demands_below; eassumption.
Qed.

Lemma assertProductsMatch_below_witness :
  passes (assertProductsMatch Fixtures.createdProduct Partial.empty).
Proof.
  apply (@assertProductsMatch_below Fixtures.createdProduct
           Partial.empty Fixtures.sampleProduct).
  - unfold Partial.below. simpl. tauto.
  - reflexivity.
Defined.

Lemma passes_assertValidProduct (product : Product) :
  passes (assertValidProduct product) <->
    0 < id product
    /\ title product <> EmptyString
    /\ description product <> EmptyString
    /\ 0 < price product
    /\ 0 <= discountPercentage product
    /\ (0 <= rating product /\ rating product <= 5)
    /\ 0 <= stock product
    /\ category product <> EmptyString
    /\ thumbnail product <> EmptyString.
Proof.
  unfold assertValidProduct. matchers.
  pose proof (brand_check_passes (brand product)) as Hbrand.
  unfold Array_isArray. simpl (truthy true). tauto.
Qed.

(** X9: a product that [assertValidProduct] accepts matches an expected
    partial only if the values the partial gives for price, rating and
    stock, where they are compared, are themselves within the bounds: a
    positive price, a rating of at most 5 and a positive stock. *)
Theorem assertProductsMatch_valid_bounds (actual : Product)
        (expected : Partial.Product) :
  passes (assertValidProduct actual) ->
  passes (assertProductsMatch actual expected) ->
  (forall p, Partial.price expected = Some p -> ~ p == 0 -> 0 < p)
  /\ (forall r, Partial.rating expected = Some r -> ~ r == 0 ->
        0 < r /\ r <= 5)
  /\ (forall s, Partial.stock expected = Some s -> ~ s == 0 -> 0 < s).
Proof.
  intros Hvalid Hmatch.
  apply passes_assertValidProduct in Hvalid.
  destruct Hvalid as (_ & _ & _ & Hprice & _ & (Hr0 & Hr5) & Hstock & _).
  apply passes_assertProductsMatch in Hmatch.
  destruct Hmatch as (_ & Dp & _ & Dr & Ds & _).
  unfold Spec.demands, same_number in *.
  split; [|split].
  - intros p Hp Hnz. rewrite Hp in Dp.
    rewrite <- (Dp (proj2 (truthy_number p) Hnz)). exact Hprice.
  - intros r Hr Hnz. rewrite Hr in Dr.
    pose proof (Dr (proj2 (truthy_number r) Hnz)) as Heq.
    rewrite <- Heq. split; [|exact Hr5].
    apply Qle_lt_or_eq in Hr0. destruct Hr0 as [Hlt|Hz]; [exact Hlt|].
    exfalso. apply Hnz. rewrite <- Heq. symmetry. exact Hz.
  - intros s Hs Hnz. rewrite Hs in Ds.
    pose proof (Ds (proj2 (truthy_number s) Hnz)) as Heq.
    rewrite <- Heq.
    apply Qle_lt_or_eq in Hstock. destruct Hstock as [Hlt|Hz]; [exact Hlt|].
    exfalso. apply Hnz. rewrite <- Heq. symmetry. exact Hz.
Qed.

Lemma assertProductsMatch_valid_bounds_witness :
  0 < 9999 # 100.
Proof.
  refine (proj1 (@assertProductsMatch_valid_bounds Fixtures.createdProduct
                   Fixtures.sampleProduct eq_refl eq_refl)
                (9999 # 100) eq_refl _).
  intros H. apply Qeq_bool_iff in H. vm_compute in H. discriminate.
Defined.

(* ------------------------------------------------------------------ *)
(** * More about the client *)

Section ClientFailures.

Import Http Operations.

Variable Json : Type.
Variable Number_toString : number -> string.

(** X10: every operation sends exactly one request, whatever comes back,
    and forwards a failure as it is: a transport failure of the request
    and a body that does not decode are thrown unchanged, with no second
    request. *)
Theorem call_failures_propagate (this : ProductsAPI.t Json)
        (op : Operation) :
  sent (call Number_toString this op) = [request_of Number_toString op]
  /\ (forall e,
        ProductsAPI.request this (request_of Number_toString op) = Throw e ->
        outcome (call Number_toString this op) = Throw e)
  /\ (forall response e,
        ProductsAPI.request this (request_of Number_toString op)
        = Normal response ->
        Http.json response = Throw e ->
        outcome (call Number_toString this op) = Throw e).
Proof.
  rewrite call_unfold. unfold sent, outcome. simpl.
  split; [reflexivity|]. split.
  - intros e Hreq. rewrite Hreq. reflexivity.
  - intros response e Hreq Hjson. rewrite Hreq. simpl.
    unfold envelope. rewrite Hjson. reflexivity.
Qed.

(** X11: an envelope is returned only for a completed exchange whose body
    decoded, and it copies the response: the decoded body, the status,
    the success flag, the status text and the headers are those of the
    response. *)
Theorem call_envelope_of_response (this : ProductsAPI.t Json)
        (op : Operation) (env : ProductsAPI.ApiResponse Json) :
  outcome (call Number_toString this op) = Normal env ->
  exists response,
    ProductsAPI.request this (request_of Number_toString op) = Normal response
    /\ Http.json response = Normal (ProductsAPI.data env)
    /\ ProductsAPI.status env = Http.status response
    /\ ProductsAPI.ok env = Http.ok response
    /\ ProductsAPI.statusText env = Http.statusText response
    /\ ProductsAPI.headers env = Http.headers response.
Proof.
  rewrite call_unfold. unfold outcome. simpl.
  destruct (ProductsAPI.request this (request_of Number_toString op))
    as [response|e]; simpl; [|discriminate].
  unfold envelope. destruct (Http.json response) as [d|e] eqn:Hjson; simpl;
    [|discriminate].
  intros Henv. injection Henv as <-. exists response. simpl.
  repeat split; try reflexivity. exact Hjson.
Qed.

(** What an operation of the revision with a base URL does for an
    argument that is no structured category. *)
Lemma call_baseURL_unfold (that : ProductsAPI_baseURL.t Json)
      (op : Operation) :
  plain_argument op ->
  call_baseURL Number_toString that op
  = ([with_base (ProductsAPI_baseURL.baseURL that)
                (request_of Number_toString op)],
     response <- ProductsAPI_baseURL.request that
                   (with_base (ProductsAPI_baseURL.baseURL that)
                              (request_of Number_toString op)) ;;
     Http.json response).
Proof.
  intros Hplain.
  destruct op as [l s|i|q| |[s|c]|p|i u|i u|i]; try contradiction;
    simpl;
    unfold ProductsAPI_baseURL.getAllProducts,
      ProductsAPI_baseURL.getProductById,
      ProductsAPI_baseURL.searchProducts,
      ProductsAPI_baseURL.getCategories,
      ProductsAPI_baseURL.getProductsByCategory,
      ProductsAPI_baseURL.addProduct, ProductsAPI_baseURL.updateProduct,
      ProductsAPI_baseURL.patchProduct, ProductsAPI_baseURL.deleteProduct,
      get, post, put, patch, delete, send, Http.bind, await, with_base;
    simpl;
    match goal with
    | |- context [ProductsAPI_baseURL.request that ?r] =>
        destruct (ProductsAPI_baseURL.request that r) as [response|e]
    end; reflexivity.
Qed.

(** X12: the two revisions of the client agree: for every operation and
    every argument but a structured category, when the server answers
    the request under the base URL as the other server answers the bare
    path, the revision with a base URL sends that one request and returns
    exactly the [data] of the envelope the other revision returns, and
    throws what it throws. *)
Theorem call_baseURL_agrees (this : ProductsAPI.t Json)
        (that : ProductsAPI_baseURL.t Json) (op : Operation) :
  plain_argument op ->
  ProductsAPI_baseURL.request that
    (with_base (ProductsAPI_baseURL.baseURL that)
               (request_of Number_toString op))
  = ProductsAPI.request this (request_of Number_toString op) ->
  sent (call_baseURL Number_toString that op)
  = [with_base (ProductsAPI_baseURL.baseURL that)
               (request_of Number_toString op)]
  /\ outcome (call_baseURL Number_toString that op)
     = (env <- outcome (call Number_toString this op) ;;
        Normal (ProductsAPI.data env)).
Proof.
  intros Hplain Hsame. rewrite (call_baseURL_unfold that op Hplain).
  rewrite call_unfold. unfold sent, outcome. simpl.
  split; [reflexivity|]. rewrite Hsame.
  destruct (ProductsAPI.request this (request_of Number_toString op))
    as [response|e]; simpl; [|reflexivity].
  unfold envelope. destruct (Http.json response) as [d|e]; reflexivity.
Qed.

(** What the revision with a base URL sends for any argument. *)
Lemma call_baseURL_sent (that : ProductsAPI_baseURL.t Json)
      (op : Operation) :
  exists path,
    sent (call_baseURL Number_toString that op)
    = [{| method := method (request_of Number_toString op);
          target := ProductsAPI_baseURL.baseURL that ++ path;
          params := params (request_of Number_toString op);
          body := body (request_of Number_toString op) |}].
Proof.
  destruct op as [l s|i|q| |[s|c]|p|i u|i u|i];
    try (eexists; rewrite call_baseURL_unfold by exact I; reflexivity).
  exists "/products/category/[object Object]".
  simpl. rewrite sent_getProductsByCategory_baseURL. reflexivity.
Qed.

(** X13: every operation of the revision with a base URL sends exactly
    one request, with the method, parameters and body of the other
    revision and a target that begins with the base URL of the client. *)
Theorem call_baseURL_under_base (that : ProductsAPI_baseURL.t Json)
        (op : Operation) :
  exists req,
    sent (call_baseURL Number_toString that op) = [req]
    /\ String.prefix (ProductsAPI_baseURL.baseURL that) (target req) = true
    /\ method req = method (request_of Number_toString op)
    /\ params req = params (request_of Number_toString op)
    /\ body req = body (request_of Number_toString op).
Proof.
  destruct (call_baseURL_sent that op) as [path Hsent].
  eexists. split; [exact Hsent|]. simpl.
  split; [apply prefix_spec; eexists; reflexivity|].
  repeat split; reflexivity.
Qed.

(** X14: the revision with a base URL reads nothing of the response but
    its body: against two servers that answer alike except for the status
    line, an operation sends the same request and ends in the same way,
    with the same value or the same exception. *)
Theorem call_baseURL_ignores_status (that that' : ProductsAPI_baseURL.t Json)
        (op : Operation) :
  ProductsAPI_baseURL.baseURL that = ProductsAPI_baseURL.baseURL that' ->
  alike_but_status (ProductsAPI_baseURL.request that)
                   (ProductsAPI_baseURL.request that') ->
  call_baseURL Number_toString that op
  = call_baseURL Number_toString that' op.
Proof.
  intros Hbase Halike.
  assert (Hstep : forall req,
    Http.bind (send (ProductsAPI_baseURL.request that) req)
              (fun response => await (Http.json response))
    = Http.bind (send (ProductsAPI_baseURL.request that') req)
                (fun response => await (Http.json response))).
  { intros req. unfold Http.bind, send, await.
    specialize (Halike req).
    destruct (ProductsAPI_baseURL.request that req) as [r|e];
      destruct (ProductsAPI_baseURL.request that' req) as [r'|e'];
      try contradiction.
    - destruct Halike as [_ Hjson]. rewrite Hjson. reflexivity.
    - subst e'. reflexivity. }
  destruct op as [l s|i|q| |[s|c]|p|i u|i u|i]; simpl;
    unfold ProductsAPI_baseURL.getAllProducts,
      ProductsAPI_baseURL.getProductById,
      ProductsAPI_baseURL.searchProducts,
      ProductsAPI_baseURL.getCategories,
      ProductsAPI_baseURL.getProductsByCategory,
      ProductsAPI_baseURL.addProduct, ProductsAPI_baseURL.updateProduct,
      ProductsAPI_baseURL.patchProduct, ProductsAPI_baseURL.deleteProduct,
      get, post, put, patch, delete;
    rewrite Hbase; apply Hstep.
Qed.

End ClientFailures.

Lemma call_failures_propagate_witness :
  Http.outcome
    (Operations.call Fixtures.Number_toString
       {| ProductsAPI.request := fun _ => Normal Fixtures.badGateway |}
       (Operations.GetAllProducts None None))
  = Throw (SyntaxError "Unexpected token < in JSON at position 0").
Proof.
  apply (proj2 (proj2
    (@call_failures_propagate Fixtures.Json Fixtures.Number_toString
       {| ProductsAPI.request := fun _ => Normal Fixtures.badGateway |}
       (Operations.GetAllProducts None None)))
    Fixtures.badGateway _ eq_refl eq_refl).
Defined.

Lemma call_envelope_of_response_witness :
  exists response,
    Fixtures.notFoundServer
      (Operations.request_of Fixtures.Number_toString
         (Operations.DeleteProduct 999999)) = Normal response
    /\ Http.statusText response = "Not Found".
Proof.
  destruct (@call_envelope_of_response Fixtures.Json
              Fixtures.Number_toString
              {| ProductsAPI.request := Fixtures.notFoundServer |}
              (Operations.DeleteProduct 999999)
              {| ProductsAPI.data :=
                   [("message", "Product with id '999999' not found")];
                 ProductsAPI.status := 404;
                 ProductsAPI.ok := false;
                 ProductsAPI.statusText := "Not Found";
                 ProductsAPI.headers :=
                   [("content-type", "application/json; charset=utf-8")] |}
              eq_refl)
    as (response & Hreq & _ & _ & _ & Htext & _).
  exists response. split; [exact Hreq|]. symmetry. exact Htext.
Defined.

Lemma call_baseURL_agrees_witness :
  Http.outcome
    (Operations.call_baseURL Fixtures.Number_toString
       (ProductsAPI_baseURL.new Fixtures.notFoundServer None)
       (Operations.GetProductById 999999))
  = Normal [("message", "Product with id '999999' not found")].
Proof.
  rewrite (proj2
    (@call_baseURL_agrees Fixtures.Json Fixtures.Number_toString
       {| ProductsAPI.request := Fixtures.notFoundServer |}
       (ProductsAPI_baseURL.new Fixtures.notFoundServer None)
       (Operations.GetProductById 999999) I eq_refl)).
  reflexivity.
Defined.

Lemma call_baseURL_ignores_status_witness :
  Operations.call_baseURL Fixtures.Number_toString
    (ProductsAPI_baseURL.new Fixtures.notFoundServer None)
    (Operations.SearchProducts "phone")
  = Operations.call_baseURL Fixtures.Number_toString
      (ProductsAPI_baseURL.new (fun _ => Normal Fixtures.sameBodyOk) None)
      (Operations.SearchProducts "phone").
Proof.
  apply (@call_baseURL_ignores_status Fixtures.Json Fixtures.Number_toString
           (ProductsAPI_baseURL.new Fixtures.notFoundServer None)
           (ProductsAPI_baseURL.new (fun _ => Normal Fixtures.sameBodyOk)
                                    None)).
  - reflexivity.
  - intros req. simpl. split; reflexivity.
Defined.

(* ------------------------------------------------------------------ *)
(** * More about [validateResponseSchema] *)

Section ValidatorEdges.

Import SchemaValidator.

Variables Body Schema Ajv : Type.
Variable compile : Ajv -> Schema -> completion (ValidateFunction Body) * Ajv.
Variable JSON_stringify : Body -> nat -> string.

Local Abbreviation validateResponseSchema :=
  (SchemaValidator.validateResponseSchema compile JSON_stringify).
Local Abbreviation failureMessage :=
  (SchemaValidator.failureMessage JSON_stringify).

(** X15: the result of [validateResponseSchema] can be trusted without
    any assumption on the validator: when the schema compiles, a returned
    [true] means that the body conforms, and a thrown error means that it
    does not. *)
Theorem validateResponseSchema_sound (ajv : Ajv) (response : Body)
        (schema : Schema) (validate : ValidateFunction Body) :
  fst (compile ajv schema) = Normal validate ->
  (fst (validateResponseSchema ajv response schema) = Normal true ->
   conforms validate response)
  /\ (forall e,
        fst (validateResponseSchema ajv response schema) = Throw e ->
        ~ conforms validate response).
Proof.
  intros Hcompile. rewrite validateResponseSchema_outcome, Hcompile.
  unfold conforms. simpl.
  destruct (validate response) as [[|] [errs|]]; simpl; split;
    try discriminate; try reflexivity;
    intros; discriminate.
Qed.

(** X16: the edges of the error report.  A validator that answers
    [false] and leaves [validate.errors] null makes the call return
    [false] without throwing; an empty array of errors still makes it
    throw, with a message that lists nothing; and errors left on a
    validator that answers [true] are ignored. *)
Theorem validateResponseSchema_errors_edges (ajv : Ajv) (response : Body)
        (schema : Schema) (validate : ValidateFunction Body) :
  fst (compile ajv schema) = Normal validate ->
  (validate response = (false, None) ->
   fst (validateResponseSchema ajv response schema) = Normal false)
  /\ (validate response = (false, Some []) ->
      fst (validateResponseSchema ajv response schema)
      = Throw (Error ("Schema validation failed:" ++ LF ++ LF ++ LF
                      ++ "Actual Response:" ++ LF
                      ++ JSON_stringify response 2)))
  /\ (forall errors,
        validate response = (true, errors) ->
        fst (validateResponseSchema ajv response schema) = Normal true).
Proof.
  intros Hcompile. rewrite validateResponseSchema_outcome, Hcompile. simpl.
  split; [|split].
  - intros ->. reflexivity.
  - intros ->. reflexivity.
  - intros errors ->. reflexivity.
Qed.

End ValidatorEdges.

Lemma validateResponseSchema_sound_witness :
  SchemaValidator.conforms
    (AjvModel.build Fixtures.productSchema) Fixtures.productBody.
Proof.
  apply (proj1
    (@validateResponseSchema_sound
       AjvModel.Body AjvModel.Schema AjvModel.Ajv
       AjvModel.compile AjvModel.JSON_stringify
       AjvModel.new Fixtures.productBody Fixtures.productSchema _
       eq_refl)).
  reflexivity.
Defined.

(** A validator that answers [false] and reports nothing. *)
Lemma validateResponseSchema_errors_edges_witness :
  fst (SchemaValidator.validateResponseSchema
         (fun (ajv : unit) (schema : unit) =>
            (Normal (fun _ : unit => (false, None)), ajv))
         (fun _ _ => "null") tt tt tt)
  = Normal false.
Proof.
  apply (proj1
    (@validateResponseSchema_errors_edges unit unit unit
       (fun (ajv : unit) (schema : unit) =>
          (Normal (fun _ : unit => (false, None)), ajv))
       (fun _ _ => "null") tt tt tt _ eq_refl)).
  reflexivity.
Defined.

(* ------------------------------------------------------------------ *)
(** * The utility functions *)

Lemma is_whitespace_lower (c : ascii) :
  is_whitespace (lower_ascii c) = is_whitespace c.
Proof.
  destruct c as [[] [] [] [] [] [] [] []]; reflexivity.
Qed.

Lemma is_whitespace_upper (c : ascii) :
  is_whitespace (upper_ascii c) = is_whitespace c.
Proof.
  destruct c as [[] [] [] [] [] [] [] []]; reflexivity.
Qed.

Lemma lower_upper_ascii (c : ascii) :
  lower_ascii (upper_ascii c) = lower_ascii c.
Proof.
  destruct c as [[] [] [] [] [] [] [] []]; reflexivity.
Qed.

Lemma trimEnd_cons (c : ascii) (r : string) :
  trimEnd (String c r)
  = match trimEnd r with
    | EmptyString => if is_whitespace c then EmptyString
                     else String c EmptyString
    | String c' r' => String c (String c' r')
    end.
Proof. reflexivity. Qed.

Lemma trimStart_idempotent (s : string) :
  trimStart (trimStart s) = trimStart s.
Proof.
  induction s as [|c r IH]; [reflexivity|]. simpl.
  destruct (is_whitespace c) eqn:E; [exact IH|].
  simpl. rewrite E. reflexivity.
Qed.

Lemma trimEnd_idempotent (s : string) : trimEnd (trimEnd s) = trimEnd s.
Proof.
  induction s as [|c r IH]; [reflexivity|].
  rewrite trimEnd_cons. destruct (trimEnd r) as [|c' r'] eqn:E.
  - destruct (is_whitespace c) eqn:Ec; [reflexivity|].
    simpl. rewrite Ec. reflexivity.
  - rewrite trimEnd_cons, IH. reflexivity.
Qed.

Lemma trimStart_trimEnd (s : string) :
  trimStart (trimEnd s) = trimEnd (trimStart s).
Proof.
  induction s as [|c r IH]; [reflexivity|].
  rewrite trimEnd_cons. simpl trimStart at 2.
  destruct (is_whitespace c) eqn:Ec.
  - rewrite <- IH. destruct (trimEnd r) as [|c' r'] eqn:E.
    + reflexivity.
    + simpl. rewrite Ec. reflexivity.
  - rewrite trimEnd_cons.
    destruct (trimEnd r) as [|c' r']; simpl; rewrite Ec; reflexivity.
Qed.

Lemma trim_idempotent (s : string) : trim (trim s) = trim s.
Proof.
  unfold trim.
  rewrite (trimStart_trimEnd (trimStart s)), trimStart_idempotent.
  apply trimEnd_idempotent.
Qed.

Lemma toLowerCase_trimStart (s : string) :
  toLowerCase (trimStart s) = trimStart (toLowerCase s).
Proof.
  induction s as [|c r IH]; [reflexivity|]. simpl.
  rewrite is_whitespace_lower.
  destruct (is_whitespace c); [exact IH | reflexivity].
Qed.

Lemma toLowerCase_trimEnd (s : string) :
  toLowerCase (trimEnd s) = trimEnd (toLowerCase s).
Proof.
  induction s as [|c r IH]; [reflexivity|].
  simpl toLowerCase at 2. rewrite !trimEnd_cons, <- IH.
  rewrite is_whitespace_lower.
  destruct (trimEnd r) as [|c' r']; simpl.
  - destruct (is_whitespace c); reflexivity.
  - reflexivity.
Qed.

Lemma toLowerCase_trim (s : string) :
  toLowerCase (trim s) = trim (toLowerCase s).
Proof.
  unfold trim. now rewrite toLowerCase_trimEnd, toLowerCase_trimStart.
Qed.

(** X17: [sanitizeString] is idempotent: a sanitized string is its own
    sanitized form. *)
Theorem sanitizeString_idempotent (str : string) :
  Utils.sanitizeString (Utils.sanitizeString str)
  = Utils.sanitizeString str.
Proof.
  unfold Utils.sanitizeString.
  rewrite <- (toLowerCase_trim (trim str)), trim_idempotent.
  apply toLowerCase_idempotent.
Qed.

Lemma trimStart_whitespace (ws s : string) :
  all_whitespace ws = true -> trimStart (ws ++ s) = trimStart s.
Proof.
  induction ws as [|c r IH]; simpl; [reflexivity|].
  rewrite andb_true_iff. intros [-> Hr]. apply IH. exact Hr.
Qed.

Lemma trimEnd_all_whitespace (ws : string) :
  all_whitespace ws = true -> trimEnd ws = EmptyString.
Proof.
  induction ws as [|c r IH]; [reflexivity|]. simpl all_whitespace.
  rewrite andb_true_iff. intros [Hc Hr].
  rewrite trimEnd_cons, (IH Hr), Hc. reflexivity.
Qed.

Lemma trimEnd_whitespace (s ws : string) :
  all_whitespace ws = true -> trimEnd (s ++ ws) = trimEnd s.
Proof.
  intros Hws. induction s as [|c r IH].
  - simpl. apply trimEnd_all_whitespace. exact Hws.
  - simpl String.append. rewrite !trimEnd_cons, IH. reflexivity.
Qed.

Lemma toUpperCase_trimStart (s : string) :
  toUpperCase (trimStart s) = trimStart (toUpperCase s).
Proof.
  induction s as [|c r IH]; [reflexivity|]. simpl.
  rewrite is_whitespace_upper.
  destruct (is_whitespace c); [exact IH | reflexivity].
Qed.

Lemma toUpperCase_trimEnd (s : string) :
  toUpperCase (trimEnd s) = trimEnd (toUpperCase s).
Proof.
  induction s as [|c r IH]; [reflexivity|].
  simpl toUpperCase at 2. rewrite !trimEnd_cons, <- IH.
  rewrite is_whitespace_upper.
  destruct (trimEnd r) as [|c' r']; simpl.
  - destruct (is_whitespace c); reflexivity.
  - reflexivity.
Qed.

Lemma toLowerCase_toUpperCase (s : string) :
  toLowerCase (toUpperCase s) = toLowerCase s.
Proof.
  induction s as [|c r IH]; simpl; [reflexivity|].
  now rewrite lower_upper_ascii, IH.
Qed.

(** X18: [sanitizeString] does not see white space around the string
    nor, on a string in the ASCII range, the case of its letters:
    surrounding a string with tabs, line breaks and spaces leaves its
    sanitized form unchanged, and so does putting an ASCII string in
    upper case. *)
Theorem sanitizeString_normalizes (before str after : string) :
  all_whitespace before = true ->
  all_whitespace after = true ->
  Utils.sanitizeString (before ++ str ++ after) = Utils.sanitizeString str
  /\ (ascii_only str = true ->
      Utils.sanitizeString (toUpperCase str) = Utils.sanitizeString str).
Proof.
  intros Hb Ha. unfold Utils.sanitizeString, trim. split.
  - rewrite trimStart_whitespace by exact Hb.
    rewrite <- trimStart_trimEnd.
    rewrite trimEnd_whitespace by exact Ha.
    rewrite trimStart_trimEnd. reflexivity.
  - intros _. rewrite <- toUpperCase_trimStart, <- toUpperCase_trimEnd.
    apply toLowerCase_toUpperCase.
Qed.

Lemma sanitizeString_normalizes_witness :
  Utils.sanitizeString ("  " ++ "Smart Phones" ++ " ") = "smart phones"
  /\ Utils.sanitizeString (toUpperCase "Smart Phones") = "smart phones".
Proof.
  destruct (@sanitizeString_normalizes "  " "Smart Phones" " "
              eq_refl eq_refl) as [Hspace Hcase].
  split.
  - rewrite Hspace. reflexivity.
  - rewrite (Hcase eq_refl). reflexivity.
Defined.

(** X19: [isResponseTimeAcceptable] is monotone: a response time that is
    acceptable stays acceptable when the time gets shorter or the
    threshold larger, an omitted threshold counting as 2000. *)
Theorem isResponseTimeAcceptable_monotone (time time' : number)
        (threshold threshold' : option number) :
  time' <= time ->
  default (2000 : number) threshold
  <= default (2000 : number) threshold' ->
  Utils.isResponseTimeAcceptable time threshold = true ->
  Utils.isResponseTimeAcceptable time' threshold' = true.
Proof.
  unfold Utils.isResponseTimeAcceptable. rewrite !Qlt_bool_iff.
  intros Ht Hth Hacc.
  apply Qle_lt_trans with time; [exact Ht|].
  apply Qlt_le_trans with (default (2000 : number) threshold); assumption.
Qed.

Lemma isResponseTimeAcceptable_monotone_witness :
  Utils.isResponseTimeAcceptable 350 None = true.
Proof.
  apply (@isResponseTimeAcceptable_monotone 1200 350
           (Some (Finite 1500)) None).
  - apply Qle_bool_iff. reflexivity.
  - apply Qle_bool_iff. reflexivity.
  - reflexivity.
Defined.

(* ------------------------------------------------------------------ *)
(** * The checks of the test specifications *)

Lemma includes_append_l (a b needle : string) :
  includes a needle = true -> includes (a ++ b) needle = true.
Proof.
  rewrite !includes_spec. intros (x & y & ->).
  exists x, (y ++ b). rewrite !append_assoc. reflexivity.
Qed.

Lemma includes_append_r (a b needle : string) :
  includes b needle = true -> includes (a ++ b) needle = true.
Proof.
  rewrite !includes_spec. intros (x & y & ->).
  exists (a ++ x), y. rewrite !append_assoc. reflexivity.
Qed.

Lemma combinedText_parts (product : Product) :
  Tests.combinedText product
  = toLowerCase (title product) ++ " "
    ++ toLowerCase (description product) ++ " "
    ++ toLowerCase (template_string (brand product)).
Proof.
  unfold Tests.combinedText. rewrite !toLowerCase_append. reflexivity.
Qed.

Lemma passes_partialNameCheck (searchTerm : string) (product : Product) :
  passes (Tests.partialNameCheck searchTerm product) <->
  includes (Tests.combinedText product) (toLowerCase searchTerm) = true.
Proof.
  unfold Tests.partialNameCheck, toContain, expect. apply passes_check.
Qed.

(** X20: the relevance helper is the stricter of the two search checks:
    every product of a list that passes [assertProductsMatchSearch] also
    passes the check of the partial-name test, which looks for the term
    in the joined text of title, description and brand. *)
Theorem partialNameCheck_after_helper (products : list Product)
        (searchTerm : string) :
  passes (assertProductsMatchSearch products searchTerm) ->
  passes (forEach products (Tests.partialNameCheck searchTerm)).
Proof.
  rewrite passes_assertProductsMatchSearch, forEach_passes, Forall_forall.
  intros H product Hin. destruct (H product Hin) as (b & Hb & Hm).
  apply passes_partialNameCheck. rewrite combinedText_parts, Hb.
  unfold Spec.matchesSearch in Hm. rewrite Hb in Hm.
  rewrite !orb_true_iff in Hm. destruct Hm as [[Ht|Hd]|Hbr].
  - apply includes_append_l. exact Ht.
  - apply includes_append_r, includes_append_r, includes_append_l.
    exact Hd.
  - simpl template_string. repeat apply includes_append_r. exact Hbr.
Qed.

Lemma partialNameCheck_after_helper_witness :
  passes (forEach [Fixtures.iPhone9] (Tests.partialNameCheck "APPLE")).
Proof.
  apply (@partialNameCheck_after_helper [Fixtures.iPhone9] "APPLE").
  reflexivity.
Defined.

(** X21: in the check of the partial-name test a missing brand is no
    error but text: a product without a brand is joined with the word
    [undefined], and passes the check for every search term that, in
    lower case, is a part of that word. *)
Theorem partialNameCheck_undefined_brand (product : Product)
        (before searchTerm after : string) :
  brand product = None ->
  before ++ toLowerCase searchTerm ++ after = "undefined" ->
  passes (Tests.partialNameCheck searchTerm product).
Proof.
  intros Hb Hpart. apply passes_partialNameCheck.
  rewrite combinedText_parts, Hb. simpl template_string.
  repeat apply includes_append_r.
  change (toLowerCase "undefined") with "undefined".
  rewrite <- Hpart. apply includes_append.
Qed.

Lemma partialNameCheck_undefined_brand_witness :
  passes (Tests.partialNameCheck "Fine" Fixtures.phoneStand).
Proof.
  apply (@partialNameCheck_undefined_brand Fixtures.phoneStand
           "unde" "Fine" "d"); reflexivity.
Defined.

Lemma split_not_nil (sep : ascii) (s : string) : split sep s <> [].
Proof.
  destruct s as [|c r]; simpl; [discriminate|].
  destruct (Ascii.eqb c sep); [discriminate|].
  destruct (split sep r); discriminate.
Qed.

(** The first word of [s.split(sep)] is where [s] begins. *)
Lemma split_head_prefix (sep : ascii) (s w : string) (ws : list string) :
  split sep s = w :: ws -> exists rest, s = w ++ rest.
Proof.
  revert w ws. induction s as [|c r IH]; intros w ws; simpl.
  - intros H. injection H as <- _. exists EmptyString. reflexivity.
  - destruct (Ascii.eqb c sep).
    + intros H. injection H as <- _. exists (String c r). reflexivity.
    + destruct (split sep r) as [|w' ws'] eqn:E.
      * exfalso. exact (split_not_nil sep r E).
      * intros H. injection H as <- _.
        destruct (IH w' ws' eq_refl) as [rest ->].
        exists rest. reflexivity.
Qed.

(** Every word of [s.split(sep)] occurs in [s]. *)
Lemma split_words_included (sep : ascii) (s word : string) :
  In word (split sep s) -> includes s word = true.
Proof.
  revert word. induction s as [|c r IH]; intros word.
  - simpl. intros [<-|[]]. reflexivity.
  - intros Hin. destruct (split sep (String c r)) as [|w ws] eqn:E;
      [contradiction|].
    destruct Hin as [<-|Hin].
    + destruct (split_head_prefix _ _ E) as [rest ->].
      apply includes_spec. exists EmptyString, rest. reflexivity.
    + apply (includes_append_r (String c EmptyString) r). apply IH.
      simpl in E. destruct (Ascii.eqb c sep).
      * injection E as _ <-. exact Hin.
      * destruct (split sep r) as [|w' ws'];
          [injection E as _ <-; contradiction|].
        injection E as _ <-. right. exact Hin.
Qed.

Lemma split_trailing (sep : ascii) (s : string) :
  split sep (s ++ String sep EmptyString) = (split sep s ++ [EmptyString])%list.
Proof.
  induction s as [|c r IH]; simpl.
  - rewrite Ascii.eqb_refl. reflexivity.
  - destruct (Ascii.eqb c sep); rewrite IH; [reflexivity|].
    destruct (split sep r) as [|w ws] eqn:E; [|reflexivity].
    exfalso. exact (split_not_nil sep r E).
Qed.

Lemma passes_multiWordCheck (searchTerm : string) (product : Product) :
  passes (Tests.multiWordCheck searchTerm product) <->
  exists word,
    In word (split " " (toLowerCase searchTerm))
    /\ includes (Tests.combinedText product) word = true.
Proof.
  unfold Tests.multiWordCheck, toBeTruthy, expect, some.
  rewrite passes_check. simpl truthy. apply existsb_exists.
Qed.

(** X22: the multi-word check is the weaker search check: a product that
    passes the partial-name check for a term, where the whole term occurs
    in the joined text, passes the multi-word check for it, where one of
    its words has to occur. *)
Theorem multiWordCheck_after_partialNameCheck (searchTerm : string)
        (product : Product) :
  passes (Tests.partialNameCheck searchTerm product) ->
  passes (Tests.multiWordCheck searchTerm product).
Proof.
  rewrite passes_partialNameCheck, passes_multiWordCheck. intros Hwhole.
  destruct (split " " (toLowerCase searchTerm)) as [|word words] eqn:E;
    [exfalso; exact (split_not_nil _ _ E)|].
  exists word. split; [left; reflexivity|].
  apply includes_trans with (toLowerCase searchTerm); [exact Hwhole|].
  apply (split_words_included " "). rewrite E. left. reflexivity.
Qed.

Lemma multiWordCheck_after_partialNameCheck_witness :
  passes (Tests.multiWordCheck "iPhone 9" Fixtures.iPhone9).
Proof.
  apply (@multiWordCheck_after_partialNameCheck "iPhone 9" Fixtures.iPhone9).
  reflexivity.
Defined.

(** X23: the multi-word check passes for every product, matching or not,
    when the search term is empty, begins with a space or ends with one:
    splitting the term then yields an empty word, which occurs in every
    text. *)
Theorem multiWordCheck_empty_word (rest : string) (product : Product) :
  passes (Tests.multiWordCheck EmptyString product)
  /\ passes (Tests.multiWordCheck (" " ++ rest) product)
  /\ passes (Tests.multiWordCheck (rest ++ " ") product).
Proof.
  rewrite !passes_multiWordCheck. repeat split; exists EmptyString.
  - split; [left; reflexivity | apply includes_empty].
  - split; [left; reflexivity | apply includes_empty].
  - split; [|apply includes_empty].
    rewrite toLowerCase_append.
    change (toLowerCase " ") with (String " " EmptyString).
    rewrite split_trailing. apply in_or_app. right. left. reflexivity.
Qed.

Lemma filter_nil {A} (f : A -> bool) (xs : list A) :
  filter f xs = [] <-> forall x, In x xs -> f x = false.
Proof.
  induction xs as [|x r IH]; simpl.
  - split; [intros _ x [] | reflexivity].
  - destruct (f x) eqn:E.
    + split; [discriminate|]. intros H.
      specialize (H x (or_introl eq_refl)). congruence.
    + rewrite IH. split.
      * intros H y [<-|Hin]; [exact E | apply H; exact Hin].
      * intros H y Hin. apply H. right. exact Hin.
Qed.

Lemma Array_includes_false (ids : list number) (x : number) :
  Array_includes ids x = false <-> forall y, In y ids -> ~ y == x.
Proof.
  unfold Array_includes. induction ids as [|y r IH]; simpl.
  - split; [intros _ y [] | reflexivity].
  - rewrite orb_false_iff, IH. split.
    + intros [Hy Hr] z [<-|Hin].
      * intros Heq. apply Qeq_bool_iff in Heq. congruence.
      * apply Hr. exact Hin.
    + intros H. split.
      * destruct (Qeq_bool y x) eqn:E; [|reflexivity].
        apply Qeq_bool_iff in E. exfalso.
        exact (H y (or_introl eq_refl) E).
      * intros z Hin. apply H. right. exact Hin.
Qed.

Lemma passes_length_zero {A} (xs : list A) :
  passes (toBe (expect (Array_length xs)) 0) <-> xs = [].
Proof.
  unfold toBe, expect, Array_length. rewrite passes_check.
  simpl Object_is. rewrite Qeq_bool_iff.
  change 0 with (inject_Z 0). rewrite inject_Z_injective.
  destruct xs; simpl; split; try reflexivity; discriminate.
Qed.

Lemma passes_noOverlapCheck (products1 products2 : list Product) :
  passes (Tests.noOverlapCheck products1 products2) <->
  forall p1 p2, In p1 products1 -> In p2 products2 -> ~ id p1 == id p2.
Proof.
  unfold Tests.noOverlapCheck, Tests.overlap, Array_filter.
  rewrite passes_length_zero, filter_nil. split.
  - intros H p1 p2 H1 H2 Heq.
    specialize (H (id p1) (in_map id _ _ H1)).
    rewrite Array_includes_false in H.
    apply (H (id p2) (in_map id _ _ H2)). symmetry. exact Heq.
  - intros H x Hx. apply in_map_iff in Hx. destruct Hx as (p1 & <- & H1).
    apply Array_includes_false. intros y Hy Heq.
    apply in_map_iff in Hy. destruct Hy as (p2 & <- & H2).
    apply (H p1 p2 H1 H2). symmetry. exact Heq.
Qed.

(** X24: the no-overlap check of the page and category tests passes
    exactly when no product of the first listing has the id of a product
    of the second; it gives the same verdict with the listings
    exchanged. *)
Theorem noOverlapCheck_disjoint (products1 products2 : list Product) :
  (passes (Tests.noOverlapCheck products1 products2) <->
   forall p1 p2, In p1 products1 -> In p2 products2 -> ~ id p1 == id p2)
  /\ (passes (Tests.noOverlapCheck products1 products2) <->
      passes (Tests.noOverlapCheck products2 products1)).
Proof.
  split; [apply passes_noOverlapCheck|].
  rewrite !passes_noOverlapCheck. split; intros H p1 p2 H1 H2 Heq;
    apply (H p2 p1 H2 H1); symmetry; exact Heq.
Qed.

Lemma upper_ascii_fixed (c : ascii) :
  upper_ascii c = c <->
  (97 <=? nat_of_ascii c)%nat && (nat_of_ascii c <=? 122)%nat = false.
Proof.
  destruct c as [[] [] [] [] [] [] [] []]; vm_compute;
    split; intros H; try reflexivity; discriminate H.
Qed.

(** A string is its own upper-case form exactly when it has no
    lower-case letter. *)
Lemma toUpperCase_fixed (s : string) :
  toUpperCase s = s <-> has_lowercase s = false.
Proof.
  induction s as [|c r IH]; cbn [toUpperCase has_lowercase]; [tauto|].
  rewrite orb_false_iff, <- IH, <- upper_ascii_fixed. split.
  - intros H. injection H as Hc Hr. split; assumption.
  - intros [-> ->]. reflexivity.
Qed.

(** X25: for a category name in the ASCII range, the check that category
    names match exactly passes on a product exactly when the product
    carries the name and the name has a lower-case letter; for a name
    without a lower-case letter it fails on every product. *)
Theorem exactCategoryCheck_passes (categoryName : string)
        (product : Product) :
  ascii_only categoryName = true ->
  (passes (Tests.exactCategoryCheck categoryName product) <->
   category product = categoryName /\ has_lowercase categoryName = true)
  /\ (has_lowercase categoryName = false ->
      forall product', throws (Tests.exactCategoryCheck categoryName product')).
Proof.
  intros _.
  assert (Hpasses : forall p,
            passes (Tests.exactCategoryCheck categoryName p) <->
            category p = categoryName /\ has_lowercase categoryName = true).
  { intros p. unfold Tests.exactCategoryCheck.
    rewrite passes_seq, passes_toBe_string.
    unfold not_toBe, expect. rewrite passes_check. simpl Object_is.
    rewrite negb_true_iff, String.eqb_neq.
    rewrite <- not_false_iff_true, <- toUpperCase_fixed. split.
    - intros [-> Hne]. split; [reflexivity|]. congruence.
    - intros [-> Hne]. split; [reflexivity|]. congruence. }
  split; [apply Hpasses|].
  intros Hupper product'.
  destruct (Tests.exactCategoryCheck categoryName product') as [[]|e]
    eqn:Hcheck; [exfalso | exists e; reflexivity].
  apply (Hpasses product') in Hcheck. destruct Hcheck as [_ Hlower].
  congruence.
Qed.

(** The category [smartphones] on a product of it. *)
Lemma exactCategoryCheck_passes_witness :
  passes (Tests.exactCategoryCheck "smartphones" Fixtures.iPhone9).
Proof.
  apply (proj1 (@exactCategoryCheck_passes "smartphones" Fixtures.iPhone9
                  eq_refl)).
  split; reflexivity.
Defined.
